(** * The guestbook service of [app.py], embedded in Rocq

    [app.py] is a Flask application with three request handlers ([index],
    [submit], [health]) and a start-up routine ([init_db]) over one MySQL
    table, [messages(id, message, created_at)].

    The four functions of the source are translated statement by statement
    into a state-and-exception monad over a [world]: the MySQL server, the
    connection of the running request, the cursors the driver handed out and
    the process's standard output.  The libraries the source calls
    (Flask-MySQLdb, the MySQL server, Flask's request and response helpers)
    are modelled in the modules [Py], [Json], [Env], [MySQL] and [Flask]
    below. *)

From Stdlib Require Import ZArith List String Bool Lia.
From Stdlib Require Import DecimalString.
From Stdlib Require Import Sorting.Sorted Sorting.Permutation.
Import ListNotations.

Set Warnings "-register-all".

Local Open Scope string_scope.
Local Open Scope list_scope.
Local Open Scope Z_scope.

(** ** Python exceptions *)

Module Py.

(** The exception classes that can reach an [except] clause of [app.py]. *)
Inductive exn_class : Type :=
| OperationalError   (* MySQLdb: server gone, cannot connect, ... *)
| ProgrammingError   (* MySQLdb: unknown table, malformed statement *)
| IntegrityError     (* MySQLdb: constraint violated *)
| BadRequest         (* werkzeug: the JSON body does not parse *)
| AttributeError.    (* Python: [.get] on a value that is not a dict *)

(** An exception object; [str] is what [f"{e}"] prints. *)
Record exn : Type := Exn { cls : exn_class; str : string }.

End Py.

(** ** JSON values, which are also the Python values a handler holds *)

Module Json.

(** [JNull] is Python's [None]; numbers are integers (fractions are not
    modelled); an object is the parsed [dict], one entry per key. *)
Inductive json : Type :=
| JNull
| JBool (b : bool)
| JNum (n : Z)
| JStr (s : string)
| JArr (items : list json)
| JObj (fields : list (string * json)).

(** Python truthiness, as tested by [if not new_message]. *)
Definition truthy (v : json) : bool :=
  match v with
  | JNull => false
  | JBool b => b
  | JNum n => negb (n =? 0)%Z
  | JStr s => negb (s =? "")%string
  | JArr items => match items with [] => false | _ :: _ => true end
  | JObj fields => match fields with [] => false | _ :: _ => true end
  end.

(** [d.get(key)] on the entries of a dict: the value, or [None]. *)
Fixpoint lookup (key : string) (fields : list (string * json)) : json :=
  match fields with
  | [] => JNull
  | (k, v) :: rest => if (k =? key)%string then v else lookup key rest
  end.

End Json.

(** ** The world a handler runs in *)

Module Env.
Import Py Json.

(** A row of [messages]. *)
Record row : Type := Row { id : Z; message : string; created_at : Z }.

(** A table of the catalog: its column definitions as declared, its
    committed rows in insertion order, and the AUTO_INCREMENT counter.  The
    counter and the [id]s are integers without the bound of [INT]; what
    depends on the bound states it. *)
Record table : Type := Table {
  columns : list (string * string);
  rows : list row;
  auto_increment : Z
}.

(** The four statements [app.py] sends. *)
Inductive sql : Type :=
| CREATE_TABLE_IF_NOT_EXISTS_messages
    (* CREATE TABLE IF NOT EXISTS messages (id INT AUTO_INCREMENT PRIMARY KEY,
       message TEXT NOT NULL, created_at TIMESTAMP DEFAULT CURRENT_TIMESTAMP) *)
| SELECT_message_ORDER_BY_created_at_DESC_LIMIT_50
    (* SELECT message FROM messages ORDER BY created_at DESC LIMIT 50 *)
| INSERT_INTO_messages (param : json)
    (* INSERT INTO messages (message) VALUES (%s), [param] *)
| SELECT_1.
    (* SELECT 1 *)

(** A driver call that goes to the server. *)
Inductive call : Type :=
| CURSOR
| EXECUTE (statement : sql)
| COMMIT.

(** The state a handler runs in.
    - [messages_table]: the catalog entry named [messages], if any;
    - [uncommitted]: rows inserted on the current connection and not yet
      committed;
    - [now]: the server clock, in seconds (TIMESTAMP has no fraction);
    - [faults]: what the server has in store for the coming driver calls
      that reach it, one entry per call: [Some e] makes the call raise [e];
    - [open_cursors], [next_cursor]: the cursors handed out and not closed;
    - [results]: the result set each cursor holds;
    - [stdout]: the lines printed so far;
    - [calls]: the driver calls sent to the server so far, oldest first. *)
Record world : Type := World {
  messages_table : option table;
  uncommitted : list row;
  now : Z;
  faults : list (option exn);
  open_cursors : list nat;
  next_cursor : nat;
  results : list (nat * list string);
  stdout : list string;
  calls : list call
}.

Definition set_table (t : option table) (w : world) : world :=
  World t (uncommitted w) (now w) (faults w) (open_cursors w)
        (next_cursor w) (results w) (stdout w) (calls w).

Definition set_uncommitted (u : list row) (w : world) : world :=
  World (messages_table w) u (now w) (faults w) (open_cursors w)
        (next_cursor w) (results w) (stdout w) (calls w).

Definition set_now (t : Z) (w : world) : world :=
  World (messages_table w) (uncommitted w) t (faults w) (open_cursors w)
        (next_cursor w) (results w) (stdout w) (calls w).

Definition set_faults (f : list (option exn)) (w : world) : world :=
  World (messages_table w) (uncommitted w) (now w) f (open_cursors w)
        (next_cursor w) (results w) (stdout w) (calls w).

Definition set_cursors (open : list nat) (next : nat) (w : world) : world :=
  World (messages_table w) (uncommitted w) (now w) (faults w) open
        next (results w) (stdout w) (calls w).

Definition set_results (r : list (nat * list string)) (w : world) : world :=
  World (messages_table w) (uncommitted w) (now w) (faults w)
        (open_cursors w) (next_cursor w) r (stdout w) (calls w).

Definition set_calls (c : list call) (w : world) : world :=
  World (messages_table w) (uncommitted w) (now w) (faults w)
        (open_cursors w) (next_cursor w) (results w) (stdout w) c.

Definition set_stdout (o : list string) (w : world) : world :=
  World (messages_table w) (uncommitted w) (now w) (faults w)
        (open_cursors w) (next_cursor w) (results w) o (calls w).

(** *** Computations that read and write the world and may raise *)

Definition M (A : Type) : Type := world -> (exn + A) * world.

Definition ret {A} (a : A) : M A := fun w => (inr a, w).

Definition raise {A} (e : exn) : M A := fun w => (inl e, w).

Definition bind {A B} (m : M A) (k : A -> M B) : M B :=
  fun w =>
    match m w with
    | (inr a, w') => k a w'
    | (inl e, w') => (inl e, w')
    end.

(** [try: body except handler]. *)
Definition try_except {A} (body : M A) (handler : exn -> M A) : M A :=
  fun w =>
    match body w with
    | (inr a, w') => (inr a, w')
    | (inl e, w') => handler e w'
    end.

(** [print(line)]. *)
Definition print (line : string) : M unit :=
  fun w => (inr tt, set_stdout (stdout w ++ [line]) w).

Declare Scope py_scope.
Delimit Scope py_scope with py.
Notation "x <- m ;; k" := (bind m (fun x => k))
  (at level 61, m at next level, right associativity) : py_scope.
Notation "m ;; k" := (bind m (fun _ => k))
  (at level 61, right associativity) : py_scope.
Notation "'try' body 'except' e => handler" :=
  (try_except body (fun e => handler))
  (at level 62, body at level 61, e name, handler at level 61) : py_scope.

End Env.

(** ** The driver (MySQLdb behind Flask-MySQLdb) and the server *)

Module MySQL.
Import Py Json Env.
Local Open Scope py_scope.

(** The columns the CREATE TABLE statement of [init_db] declares. *)
Definition messages_columns : list (string * string) :=
  [ ("id", "INT AUTO_INCREMENT PRIMARY KEY");
    ("message", "TEXT NOT NULL");
    ("created_at", "TIMESTAMP DEFAULT CURRENT_TIMESTAMP") ].

Definition LIMIT : nat := 50.

(** A driver call that goes to the server is logged and takes the next
    entry of [faults]; when there is none left the server answers. *)
Definition reach_server (what : call) : M unit :=
  fun w =>
    let w := set_calls (calls w ++ [what]) w in
    match faults w with
    | [] => (inr tt, w)
    | None :: rest => (inr tt, set_faults rest w)
    | Some e :: rest => (inl e, set_faults rest w)
    end.

(** [mysql.connection.cursor()]: connects if the request has no connection
    yet and hands out a fresh cursor. *)
Definition cursor : M nat :=
  reach_server CURSOR ;;
  fun w =>
    let c := next_cursor w in
    (inr c, set_cursors (c :: open_cursors w) (S c) w).

(** ORDER BY created_at DESC.  MySQL leaves the order of rows with equal
    keys to the server; the model keeps them in insertion order (a stable
    sort), the usual outcome. *)
Fixpoint insert_desc (r : row) (sorted : list row) : list row :=
  match sorted with
  | [] => [r]
  | r' :: rest =>
      if (created_at r <? created_at r')%Z
      then r' :: insert_desc r rest
      else r :: sorted
  end.

Definition order_by_created_at_desc (rs : list row) : list row :=
  fold_right insert_desc [] rs.

(** The text the driver sends for the parameter bound to [%s]: a string as
    it is, a number in decimal, a boolean as 1 or 0.  [None] violates NOT
    NULL; arrays and objects have no one-column rendering in the model. *)
Definition literal (param : json) : exn + string :=
  match param with
  | JStr s => inr s
  | JNum n => inr (NilZero.string_of_int (Z.to_int n))
  | JBool b => inr (if b then "1" else "0")
  | JNull => inl (Exn IntegrityError "Column 'message' cannot be null")
  | JArr _ | JObj _ => inl (Exn ProgrammingError "Operand should contain 1 column(s)")
  end.

Definition no_such_table : exn :=
  Exn ProgrammingError "Table 'messages' doesn't exist".

(** What reaches the table when the connection commits. *)
Definition flush (t : table) (pending : list row) : table :=
  Table (columns t) (rows t ++ pending) (auto_increment t).

Definition set_result (c : nat) (r : list string) (w : world) : world :=
  set_results ((c, r) :: results w) w.

(** [cur.execute(statement)]. *)
Definition execute (c : nat) (statement : sql) : M unit :=
  reach_server (EXECUTE statement) ;;
  fun w =>
    match statement with
    | CREATE_TABLE_IF_NOT_EXISTS_messages =>
        (* DDL commits the open transaction, then creates the table
           unless one of that name exists *)
        match messages_table w with
        | Some t =>
            (inr tt, set_uncommitted [] (set_table (Some (flush t (uncommitted w))) w))
        | None =>
            (inr tt, set_uncommitted [] (set_table (Some (Table messages_columns [] 1)) w))
        end
    | SELECT_message_ORDER_BY_created_at_DESC_LIMIT_50 =>
        match messages_table w with
        | Some t =>
            let visible := rows t ++ uncommitted w in
            (inr tt, set_result c
                       (map message (firstn LIMIT (order_by_created_at_desc visible))) w)
        | None => (inl no_such_table, w)
        end
    | INSERT_INTO_messages param =>
        match messages_table w with
        | Some t =>
            match literal param with
            | inr text =>
                let r := Row (auto_increment t) text (now w) in
                (inr tt,
                 set_uncommitted (uncommitted w ++ [r])
                   (set_table (Some (Table (columns t) (rows t) (auto_increment t + 1))) w))
            | inl e => (inl e, w)
            end
        | None => (inl no_such_table, w)
        end
    | SELECT_1 => (inr tt, set_result c ["1"] w)
    end.

Fixpoint result_of (c : nat) (rs : list (nat * list string)) : list string :=
  match rs with
  | [] => []
  | (c', r) :: rest => if Nat.eqb c' c then r else result_of c rest
  end.

(** [cur.fetchall()]: the rows of the last statement, held by the cursor. *)
Definition fetchall (c : nat) : M (list string) :=
  fun w => (inr (result_of c (results w)), set_result c [] w).

(** [mysql.connection.commit()].  As for every driver call, a commit that
    raises has had no effect: a reply lost after the server applied the
    commit is not represented. *)
Definition commit : M unit :=
  reach_server COMMIT ;;
  fun w =>
    match messages_table w with
    | Some t => (inr tt, set_uncommitted [] (set_table (Some (flush t (uncommitted w))) w))
    | None => (inr tt, set_uncommitted [] w)
    end.

(** [cur.close()]: client side only, it never reaches the server. *)
Definition close (c : nat) : M unit :=
  fun w =>
    (inr tt, set_cursors (filter (fun c' => negb (Nat.eqb c' c)) (open_cursors w))
                         (next_cursor w) w).

(** Flask-MySQLdb's teardown, run when the application context ends: the
    connection is closed, which rolls back what it did not commit and
    drops its cursors. *)
Definition teardown (w : world) : world :=
  set_results [] (set_cursors [] (next_cursor w) (set_uncommitted [] w)).

End MySQL.

(** ** Flask: the request, the responses, the application context *)

Module Flask.
Import Py Json Env.
Local Open Scope py_scope.

(** The request as [submit] reads it.
    - [is_json]: the content type declares JSON;
    - [body]: the body parsed as JSON, [None] when it does not parse;
    - [form]: the form fields, in the order sent;
    - [decode_error]: what the BadRequest says that werkzeug raises when the
      body does not parse; the text depends on the body and on whether the
      application runs in debug mode, as [app.run(debug=True)] sets it. *)
Record request_t : Type := Request {
  is_json : bool;
  body : option json;
  form : list (string * string);
  decode_error : string
}.

(** [request.json]: the parsed body; werkzeug raises BadRequest when the
    body does not parse. *)
Definition json (request : request_t) : M Json.json :=
  match body request with
  | Some j => ret j
  | None => raise (Exn BadRequest (decode_error request))
  end.

(** [value.get(key)]: only a dict has the method. *)
Definition get (value : Json.json) (key : string) : M Json.json :=
  match value with
  | JObj fields => ret (lookup key fields)
  | JNull => raise (Exn AttributeError "'NoneType' object has no attribute 'get'")
  | JBool _ => raise (Exn AttributeError "'bool' object has no attribute 'get'")
  | JNum _ => raise (Exn AttributeError "'int' object has no attribute 'get'")
  | JStr _ => raise (Exn AttributeError "'str' object has no attribute 'get'")
  | JArr _ => raise (Exn AttributeError "'list' object has no attribute 'get'")
  end.

(** [request.form.get(key)]: the first field of that name, or [None]. *)
Fixpoint form_get (fields : list (string * string)) (key : string) : Json.json :=
  match fields with
  | [] => JNull
  | (k, v) :: rest => if (k =? key)%string then JStr v else form_get rest key
  end.

(** What a handler returns: a JSON document or a rendered template. *)
Inductive content : Type :=
| jsonify (fields : list (string * Json.json))
| render_template (name : string) (messages : list string).

(** A response: the content and the HTTP status (200 when the handler
    returns the content alone). *)
Record response : Type := Response { payload : content; status : Z }.

Definition ok (c : content) : response := Response c 200.

(** [with app.app_context():], and the context Flask wraps around each
    request: the teardown runs however the body ends. *)
Definition app_context {A} (body : M A) : M A :=
  fun w => let (r, w') := body w in (r, MySQL.teardown w').

End Flask.

(** ** [app.py] *)

Import Py Json Env MySQL Flask.
Local Open Scope py_scope.

(** [init_db()], lines 16-32. *)
Definition init_db : M unit :=
  try
    (app_context
       (cur <- cursor ;;
        execute cur CREATE_TABLE_IF_NOT_EXISTS_messages ;;
        commit ;;
        close cur ;;
        print "✅ Database initialized successfully"))
  except e =>
    print ("❌ Database initialization error: " ++ str e).

(** [index()], lines 34-45. *)
Definition index : M response :=
  try
    (cur <- cursor ;;
     execute cur SELECT_message_ORDER_BY_created_at_DESC_LIMIT_50 ;;
     messages <- fetchall cur ;;
     close cur ;;
     ret (ok (render_template "index.html" messages)))
  except e =>
    (print ("Error fetching messages: " ++ str e) ;;
     ret (ok (render_template "index.html" []))).

(** [submit()], lines 47-67. *)
Definition submit (request : request_t) : M response :=
  try
    (new_message <-
       (if is_json request
        then (j <- json request ;; get j "new_message")
        else ret (form_get (form request) "new_message")) ;;
     if negb (truthy new_message)
     then ret (Response (jsonify [("error", JStr "Message is required")]) 400)
     else
       (cur <- cursor ;;
        execute cur (INSERT_INTO_messages new_message) ;;
        commit ;;
        close cur ;;
        ret (Response (jsonify [("message", new_message);
                                ("status", JStr "success")]) 200)))
  except e =>
    (print ("Error submitting message: " ++ str e) ;;
     ret (Response (jsonify [("error", JStr "Failed to submit message")]) 500)).

(** [health()], lines 69-78. *)
Definition health : M response :=
  try
    (cur <- cursor ;;
     execute cur SELECT_1 ;;
     close cur ;;
     ret (Response (jsonify [("status", JStr "healthy");
                             ("database", JStr "connected")]) 200))
  except _e =>
    ret (Response (jsonify [("status", JStr "unhealthy");
                            ("database", JStr "disconnected")]) 500).

(** Flask serving one request: the handler runs inside a context. *)
Definition serve (handler : M response) : M response := app_context handler.

(** The clock moving on by [seconds] between two requests. *)
Definition elapse (seconds : Z) (w : world) : world := set_now (now w + seconds) w.


(** ** Vocabulary of the statements below *)

(** The server answers the next [k] driver calls without raising. *)
Fixpoint clear (k : nat) (script : list (option exn)) : bool :=
  match k, script with
  | O, _ => true
  | S _, [] => true
  | S k', None :: rest => clear k' rest
  | S _, Some _ :: _ => false
  end.

Definition answers (k : nat) (w : world) : bool := clear k (faults w).

(** Between two requests there is no connection: nothing uncommitted, no
    cursor, no result set.  [teardown] leaves the world so. *)
Definition idle (w : world) : Prop :=
  uncommitted w = [] /\ open_cursors w = [] /\ results w = [].

(** The [new_message] field of a request: the value under that key in a JSON
    object body or in the form ([JNull] when the key is absent); [None] when
    the body declared as JSON is no object. *)
Definition new_message_field (request : request_t) : option Json.json :=
  if is_json request
  then match body request with
       | Some (JObj fields) => Some (lookup "new_message" fields)
       | _ => None
       end
  else Some (form_get (form request) "new_message").

(** The routes of the application. *)
Inductive endpoint : Type :=
| GET_index                          (* @app.route('/') *)
| POST_submit (request : request_t)  (* @app.route('/submit', methods=['POST']) *)
| GET_health.                        (* @app.route('/health') *)

Definition handler (e : endpoint) : M response :=
  match e with
  | GET_index => index
  | POST_submit request => submit request
  | GET_health => health
  end.

(** The messages a response lists. *)
Definition listed (r : exn + response) : list string :=
  match r with
  | inr (Response (render_template _ messages) _) => messages
  | _ => []
  end.

(** A request that submits [text] as JSON. *)
Definition post (text : string) : request_t :=
  Request true (Some (JObj [("new_message", JStr text)])) [] "".

(** One submission after another, the clock moving on by [wait] seconds
    before each. *)
Fixpoint submit_each (batch : list (Z * string)) (w : world) : world :=
  match batch with
  | [] => w
  | (wait, text) :: rest =>
      submit_each rest (snd (serve (submit (post text)) (elapse wait w)))
  end.

(** The responses of the handlers. *)

Definition message_is_required : response :=
  Response (jsonify [("error", JStr "Message is required")]) 400.

Definition failed_to_submit : response :=
  Response (jsonify [("error", JStr "Failed to submit message")]) 500.

Definition success (s : string) : response :=
  Response (jsonify [("message", JStr s); ("status", JStr "success")]) 200.

Definition healthy : response :=
  Response (jsonify [("status", JStr "healthy"); ("database", JStr "connected")]) 200.

Definition unhealthy : response :=
  Response (jsonify [("status", JStr "unhealthy"); ("database", JStr "disconnected")]) 500.

(** What happens to a request. *)

(** The table after one more row with text [s] was inserted at time [t]
    and committed. *)
Definition appended (tb : table) (s : string) (t : Z) : table :=
  Table (columns tb)
        (rows tb ++ [Row (auto_increment tb) s t])
        (auto_increment tb + 1).

(** The no-op query goes through: a cursor is obtained and SELECT 1 runs. *)
Definition select_1_succeeds (w : world) : Prop :=
  exists c w1 w2,
    cursor w = (inr c, w1) /\ execute c SELECT_1 w1 = (inr tt, w2).

(** The listing's driver calls raise [e]: obtaining the cursor does, or the
    SELECT does. *)
Definition select_raises (w : world) (e : exn) : Prop :=
  (exists w1, cursor w = (inl e, w1)) \/
  (exists c w1 w2,
      cursor w = (inr c, w1) /\
      execute c SELECT_message_ORDER_BY_created_at_DESC_LIMIT_50 w1 = (inl e, w2)).

(** The driver calls of a submission of [v] raise [e]: obtaining the cursor
    does, or the INSERT does, or the commit does. *)
Definition insert_raises (v : Json.json) (w : world) (e : exn) : Prop :=
  (exists w1, cursor w = (inl e, w1)) \/
  (exists c w1 w2,
      cursor w = (inr c, w1) /\
      execute c (INSERT_INTO_messages v) w1 = (inl e, w2)) \/
  (exists c w1 w2 w3,
      cursor w = (inr c, w1) /\
      execute c (INSERT_INTO_messages v) w1 = (inr tt, w2) /\
      commit w2 = (inl e, w3)).

(** An [except] clause of the handler ran: it answered 500 or printed. *)
Definition caught (w w' : world) (r : response) : Prop :=
  status r = 500 \/ stdout w' <> stdout w.

(** The request obtained a cursor: after its CURSOR call the handler went
    on to send a statement. *)
Definition acquired (w w' : world) : Prop :=
  exists statement later, calls w' = calls w ++ CURSOR :: statement :: later.

(** [a] may stand before [b] in a listing by descending [created_at]. *)
Definition not_older (a b : row) : Prop := created_at b <= created_at a.

(** Worlds and batches used as examples. *)

(** A server without the [messages] table. *)
Definition no_table : world := World None [] 0 [] [] 0 [] [] [].

Definition no_table_after_index : world :=
  World None [] 0 [] [0%nat] 1 [] ["Error fetching messages: Table 'messages' doesn't exist"]
        [CURSOR; EXECUTE SELECT_message_ORDER_BY_created_at_DESC_LIMIT_50].

(** An empty [messages] table on a server that answers. *)
Definition empty_table : world :=
  World (Some (Table messages_columns [] 1)) [] 100 [] [] 0 [] [] [].

Definition one_old_message : world :=
  World (Some (Table messages_columns [Row 1 "old" 90] 2)) [] 100 [] [] 0 [] [] [].

(** A store whose one message was created in the current second. *)
Definition same_second : world :=
  World (Some (Table messages_columns [Row 1 "old" 100] 2)) [] 100 [] [] 0 [] [] [].

(** Sixty distinct messages, m1 to m60, [wait] seconds before each. *)
Definition sixty (wait : Z) : list (Z * string) :=
  map (fun i => (wait, ("m" ++ NilZero.string_of_uint (Nat.to_uint i))%string)) (seq 1 60).

(** ** Vocabulary of the further properties *)

(** Requests served one after another, the clock moving on by [wait]
    seconds before each. *)
Fixpoint traffic (requests : list (Z * endpoint)) (w : world) : world :=
  match requests with
  | [] => w
  | (wait, e) :: rest => traffic rest (snd (serve (handler e) (elapse wait w)))
  end.

(** [t'] is [t] with rows added at the end, nothing else touched but the
    counter, which did not go back. *)
Definition extends (t t' : table) : Prop :=
  columns t' = columns t /\
  (exists more, rows t' = rows t ++ more) /\
  auto_increment t <= auto_increment t'.

(** Every [id] of the table is below its counter, and no two rows share
    one. *)
Definition well_keyed (t : table) : Prop :=
  Forall (fun r => id r < auto_increment t) (rows t) /\
  NoDup (map id (rows t)).

Definition keys_ok (w : world) : Prop :=
  match messages_table w with
  | Some t => well_keyed t
  | None => True
  end.

(** The driver calls a handler sets out to make, in order. *)
Definition plan (e : endpoint) : list call :=
  match e with
  | GET_index => [CURSOR; EXECUTE SELECT_message_ORDER_BY_created_at_DESC_LIMIT_50]
  | POST_submit request =>
      match new_message_field request with
      | Some v =>
          if truthy v
          then [CURSOR; EXECUTE (INSERT_INTO_messages v); COMMIT]
          else []
      | None => []
      end
  | GET_health => [CURSOR; EXECUTE SELECT_1]
  end.

(** What a computation raises in a world, if it raises. *)
Definition raised {A} (m : M A) (w : world) : option exn :=
  match fst (m w) with
  | inl e => Some e
  | inr _ => None
  end.

(** What can raise in a handler: its reading of the request and its driver
    calls, in the order of the source, without what the handler does with
    their results. *)
Definition attempt (e : endpoint) : M unit :=
  match e with
  | GET_index =>
      (c <- cursor ;; execute c SELECT_message_ORDER_BY_created_at_DESC_LIMIT_50)
  | POST_submit request =>
      (v <- (if is_json request
             then (j <- json request ;; get j "new_message")
             else ret (form_get (form request) "new_message")) ;;
       if negb (truthy v)
       then ret tt
       else (c <- cursor ;; execute c (INSERT_INTO_messages v) ;; commit))
  | GET_health => (c <- cursor ;; execute c SELECT_1)
  end.

(** The driver calls of [init_db]: up to the CREATE TABLE statement, and
    with the commit. *)
Definition create_calls : M unit :=
  (c <- cursor ;; execute c CREATE_TABLE_IF_NOT_EXISTS_messages).

Definition init_calls : M unit := (create_calls ;; commit).

(** One driver call, on cursor [c]; it returns the cursor to go on with. *)
Definition perform (what : call) (c : nat) : M nat :=
  match what with
  | CURSOR => cursor
  | EXECUTE statement => (execute c statement ;; ret c)
  | COMMIT => (commit ;; ret c)
  end.

(** The calls of [todo] that go out when each is made only after the one
    before it returned: all of them up to the first that raises, that one
    included. *)
Fixpoint sent_until_raise (todo : list call) (c : nat) (w : world) : list call :=
  match todo with
  | [] => []
  | what :: rest =>
      what :: match perform what c w with
              | (inr c', w') => sent_until_raise rest c' w'
              | (inl _, _) => []
              end
  end.

(** The largest value of the column [id INT]. *)
Definition INT_MAX : Z := 2147483647.

(** The AUTO_INCREMENT counter of the table, 1 while there is no table. *)
Definition counter (w : world) : Z :=
  match messages_table w with
  | Some t => auto_increment t
  | None => 1
  end.

(** The two lines [init_db] can print. *)
Definition initialized_line : string := "✅ Database initialized successfully".

Definition initialization_error_line (e : exn) : string :=
  ("❌ Database initialization error: " ++ str e)%string.

(** A newly created [messages] table. *)
Definition new_table : table := Table messages_columns [] 1.

(** * Properties *)

(** ** Unfolding the handlers *)

Ltac py_unfold :=
  unfold handler, serve, init_db, index, submit, health, app_context,
    Flask.json, get, ok,
    cursor, execute, commit, close, fetchall, teardown, reach_server,
    try_except, bind, ret, raise, print, set_result,
    set_table, set_uncommitted, set_now, set_faults, set_cursors,
    set_results, set_stdout, set_calls in *.

Ltac py_run := py_unfold; cbn in *.

(** Case analysis on the next two, or three, entries of the fault script. *)
Ltac two_faults fs :=
  destruct fs as [| [? |] [| [? |] ?]]; cbn in *; try discriminate.

Ltac three_faults fs :=
  destruct fs as [| [? |] [| [? |] [| [? |] ?]]]; cbn in *; try discriminate.

Lemma clear_nil (k : nat) : clear k [] = true.
Proof. destruct k; reflexivity. Qed.

Lemma clear_weaken (k : nat) (fs : list (option exn)) :
  clear (S k) fs = true -> clear k fs = true.
Proof.
  revert fs. induction k as [| k IH]; intros fs H; [reflexivity |].
  destruct fs as [| [e |] fs]; cbn in *; try discriminate; auto.
Qed.

Lemma app_one_neq {A} (l : list A) (x : A) : l ++ [x] <> l.
Proof.
  intro H. apply (f_equal (@List.length A)) in H.
  rewrite length_app in H. cbn in H. lia.
Qed.

Lemma falsy_str (s : string) : truthy (JStr s) = false <-> s = "".
Proof.
  cbn. destruct (String.eqb_spec s ""); cbn; split; congruence.
Qed.

(** The value [submit] binds to [new_message] is the request's field. *)
Lemma read_field (request : request_t) (v : Json.json) (w : world) :
  new_message_field request = Some v ->
  (if is_json request
   then (j <- Flask.json request ;; get j "new_message")
   else ret (form_get (form request) "new_message")) w = (inr v, w).
Proof.
  unfold new_message_field. destruct request as [isj b f d]; cbn.
  destruct isj; [| intros [= <-]; reflexivity].
  destruct b as [[] |]; try discriminate.
  intros [= <-]. reflexivity.
Qed.

(** ** Validation (C3) *)

(** C3. A submit request whose [new_message] field is absent ([None]) or
    empty is answered HTTP 400 with an error document; the handler makes no
    driver call, leaves the world as it was, so no row is created and the
    listing is what it was. *)
Theorem C3_missing_or_empty_message_is_rejected
    (request : request_t) (v : Json.json) (w : world) :
  new_message_field request = Some v ->
  v = JNull \/ v = JStr "" ->
  submit request w = (inr message_is_required, w) /\
  calls (snd (submit request w)) = calls w /\
  messages_table (snd (submit request w)) = messages_table w /\
  listed (fst (index (snd (submit request w)))) = listed (fst (index w)).
Proof.
  intros Hf Hv.
  assert (Hrun : submit request w = (inr message_is_required, w)).
  { unfold submit, try_except, bind at 1.
    rewrite (read_field _ _ _ Hf).
    destruct Hv; subst v; reflexivity. }
  rewrite Hrun. cbn. repeat split; reflexivity.
Qed.

Lemma C3_witness :
  new_message_field (Request true (Some (JObj [])) [] "") = Some JNull /\
  (JNull = JNull \/ JNull = JStr "") /\
  submit (Request true (Some (JObj [])) [] "") no_table = (inr message_is_required, no_table).
Proof.
  split; [reflexivity |]. split; [left; reflexivity |].
  apply (C3_missing_or_empty_message_is_rejected
           (Request true (Some (JObj [])) [] "") JNull no_table).
  - reflexivity.
  - left. reflexivity.
Defined.

(** ** Equations of the monad *)

Section Monad_equations.
Context {A B : Type}.
Variables (m : M A) (k : A -> M B) (w w1 : world).

Lemma bind_inr (a : A) : m w = (inr a, w1) -> bind m k w = k a w1.
Proof. unfold bind. intros ->. reflexivity. Qed.

Lemma bind_inl (e : exn) : m w = (inl e, w1) -> bind m k w = (inl e, w1).
Proof. unfold bind. intros ->. reflexivity. Qed.

Lemma try_inr (h : exn -> M A) (a : A) :
  m w = (inr a, w1) -> try_except m h w = (inr a, w1).
Proof. unfold try_except. intros ->. reflexivity. Qed.

Lemma try_inl (h : exn -> M A) (e : exn) :
  m w = (inl e, w1) -> try_except m h w = h e w1.
Proof. unfold try_except. intros ->. reflexivity. Qed.
End Monad_equations.

(** ** Unparseable JSON (C10) *)

(** C10. A submit request that declares JSON and whose body does not parse is
    answered HTTP 500 with the generic error document, not 400: the
    BadRequest raised by [request.json] lands in the handler's [except]
    clause, which prints it, whatever its text.  No driver call is made and
    no row is created. *)
Theorem C10_unparseable_json_is_a_500 (request : request_t) (w : world) :
  is_json request = true ->
  body request = None ->
  submit request w
  = (inr failed_to_submit,
     set_stdout (stdout w ++ [("Error submitting message: "
                               ++ str (Exn BadRequest (decode_error request)))%string]) w) /\
  status failed_to_submit = 500 /\
  status failed_to_submit <> 400 /\
  calls (snd (submit request w)) = calls w /\
  messages_table (snd (submit request w)) = messages_table w /\
  uncommitted (snd (submit request w)) = uncommitted w.
Proof.
  intros Hj Hb.
  assert (Hrun : submit request w
                 = (inr failed_to_submit,
                    set_stdout (stdout w ++ [("Error submitting message: "
                                 ++ str (Exn BadRequest (decode_error request)))%string]) w)).
  { unfold submit, try_except, bind, Flask.json. rewrite Hj, Hb. reflexivity. }
  rewrite Hrun. cbn. repeat split; try reflexivity. discriminate.
Qed.

Lemma C10_witness :
  is_json (Request true None []
             "400 Bad Request: Failed to decode JSON object: Expecting value: line 1 column 1 (char 0)")
  = true /\
  body (Request true None []
          "400 Bad Request: Failed to decode JSON object: Expecting value: line 1 column 1 (char 0)")
  = None /\
  submit (Request true None []
            "400 Bad Request: Failed to decode JSON object: Expecting value: line 1 column 1 (char 0)")
         no_table
  = (inr failed_to_submit,
     World None [] 0 [] [] 0 []
           ["Error submitting message: 400 Bad Request: Failed to decode JSON object: Expecting value: line 1 column 1 (char 0)"]
           []).
Proof.
  split; [reflexivity | split; [reflexivity |]].
  destruct (C10_unparseable_json_is_a_500
              (Request true None []
                 "400 Bad Request: Failed to decode JSON object: Expecting value: line 1 column 1 (char 0)")
              no_table eq_refl eq_refl) as [H _].
  rewrite H. reflexivity.
Defined.

(** A JSON body that parses to something other than an object takes the
    same path: [.get] raises AttributeError. *)
Lemma submit_json_not_an_object (w : world) :
  fst (submit (Request true (Some (JArr [])) [] "") w) = inr failed_to_submit.
Proof. reflexivity. Qed.

(** ** Health (C7) *)

Lemma select_1_succeeds_iff (w : world) :
  select_1_succeeds w <-> answers 2 w = true.
Proof.
  unfold select_1_succeeds, answers.
  destruct w as [tbl unc nw fs oc nc rs out cl].
  split.
  - intros (c & w1 & w2 & Hc & He). py_run.
    two_faults fs; try reflexivity; injection Hc as <- <-; discriminate.
  - intros H. cbn in H.
    two_faults fs; py_run; repeat eexists.
Qed.

(** C7. [health] answers 200 healthy/connected exactly when SELECT 1 goes
    through, and 500 unhealthy/disconnected otherwise, whatever was raised:
    there is no third answer and the exception is not looked at. *)
Theorem C7_health_reports_the_query (w : world) :
  (select_1_succeeds w /\ fst (health w) = inr healthy) \/
  (~ select_1_succeeds w /\ fst (health w) = inr unhealthy).
Proof.
  destruct (answers 2 w) eqn:Ha.
  - left. split; [apply select_1_succeeds_iff; exact Ha |].
    unfold answers in Ha. destruct w as [tbl unc nw fs oc nc rs out cl].
    cbn in Ha. two_faults fs; reflexivity.
  - right. split.
    + intro H. apply select_1_succeeds_iff in H. congruence.
    + unfold answers in Ha. destruct w as [tbl unc nw fs oc nc rs out cl].
      cbn in Ha. two_faults fs; reflexivity.
Qed.

(** ** Store errors while listing (C6) *)

(** [index] always returns a 200 page: nothing escapes its [try]. *)
Lemma index_total (w : world) :
  exists messages w',
    index w = (inr (ok (render_template "index.html" messages)), w').
Proof.
  destruct w as [tbl unc nw fs oc nc rs out cl].
  py_run. two_faults fs; destruct tbl; cbn; repeat eexists.
Qed.

(** The driver does not print. *)
Lemma cursor_stdout (w w1 : world) (r : exn + nat) :
  cursor w = (r, w1) -> stdout w1 = stdout w.
Proof.
  destruct w as [tbl unc nw fs oc nc rs out cl]. py_run.
  destruct fs as [| [? |] ?]; cbn; intros [= <- <-]; reflexivity.
Qed.

Lemma execute_stdout (c : nat) (statement : sql) (w w1 : world) (r : exn + unit) :
  execute c statement w = (r, w1) -> stdout w1 = stdout w.
Proof.
  destruct w as [tbl unc nw fs oc nc rs out cl]. py_run.
  destruct fs as [| [? |] ?]; cbn; destruct statement; cbn;
    try destruct tbl; cbn; try destruct (literal param); cbn;
    intros [= <- <-]; reflexivity.
Qed.

Lemma commit_stdout (w w1 : world) (r : exn + unit) :
  commit w = (r, w1) -> stdout w1 = stdout w.
Proof.
  destruct w as [tbl unc nw fs oc nc rs out cl]. py_run.
  destruct fs as [| [? |] ?]; cbn; try destruct tbl; cbn;
    intros [= <- <-]; reflexivity.
Qed.

(** C6. Whatever the store raises while listing, [index] does not fail the
    request: it prints the error and answers 200 with the page rendered on
    an empty list. *)
Theorem C6_listing_survives_store_errors (w : world) (e : exn) :
  select_raises w e ->
  exists w',
    index w = (inr (Response (render_template "index.html" []) 200), w') /\
    stdout w' = stdout w ++ [("Error fetching messages: " ++ str e)%string].
Proof.
  intros [(w1 & Hc) | (c & w1 & w2 & Hc & He)].
  - exists (set_stdout (stdout w1 ++ [("Error fetching messages: " ++ str e)%string]) w1).
    split.
    + unfold index. erewrite try_inl; [| erewrite bind_inl; [reflexivity | exact Hc]].
      reflexivity.
    + cbn. rewrite (cursor_stdout _ _ _ Hc). reflexivity.
  - exists (set_stdout (stdout w2 ++ [("Error fetching messages: " ++ str e)%string]) w2).
    split.
    + unfold index. erewrite try_inl;
        [| erewrite bind_inr; [| exact Hc]; erewrite bind_inl; [reflexivity | exact He]].
      reflexivity.
    + cbn. rewrite (execute_stdout _ _ _ _ _ He), (cursor_stdout _ _ _ Hc). reflexivity.
Qed.

Lemma C6_witness :
  select_raises no_table no_such_table /\
  fst (index no_table) = inr (Response (render_template "index.html" []) 200).
Proof.
  assert (H : select_raises no_table no_such_table).
  { right. repeat eexists. }
  split; [exact H |].
  destruct (C6_listing_survives_store_errors _ _ H) as (w' & Hrun & _).
  rewrite Hrun. reflexivity.
Defined.

(** ** Store errors while submitting (C8) *)

Lemma submit_store_error (request : request_t) (v : Json.json) (w : world) (e : exn) :
  new_message_field request = Some v ->
  truthy v = true ->
  insert_raises v w e ->
  exists w',
    submit request w = (inr failed_to_submit, w') /\
    stdout w' = stdout w ++ [("Error submitting message: " ++ str e)%string].
Proof.
  intros Hf Hv Hraise.
  assert (Hbody : exists w2,
             stdout w2 = stdout w /\
             forall h : exn -> M response, submit request w
                        = (print ("Error submitting message: " ++ str e) ;;
                           ret failed_to_submit) w2).
  { destruct Hraise as [(w1 & Hc) | [(c & w1 & w2 & Hc & He) | (c & w1 & w2 & w3 & Hc & He & Hk)]].
    - exists w1. split; [exact (cursor_stdout _ _ _ Hc) |]. intros _.
      unfold submit. erewrite try_inl; [reflexivity |].
      erewrite bind_inr; [| apply read_field; exact Hf].
      rewrite Hv. cbn [negb]. erewrite bind_inl; [reflexivity | exact Hc].
    - exists w2. split.
      { rewrite (execute_stdout _ _ _ _ _ He). exact (cursor_stdout _ _ _ Hc). }
      intros _. unfold submit. erewrite try_inl; [reflexivity |].
      erewrite bind_inr; [| apply read_field; exact Hf].
      rewrite Hv. cbn [negb]. erewrite bind_inr; [| exact Hc].
      erewrite bind_inl; [reflexivity | exact He].
    - exists w3. split.
      { rewrite (commit_stdout _ _ _ Hk), (execute_stdout _ _ _ _ _ He).
        exact (cursor_stdout _ _ _ Hc). }
      intros _. unfold submit. erewrite try_inl; [reflexivity |].
      erewrite bind_inr; [| apply read_field; exact Hf].
      rewrite Hv. cbn [negb]. erewrite bind_inr; [| exact Hc].
      erewrite bind_inr; [| exact He].
      erewrite bind_inl; [reflexivity | exact Hk]. }
  destruct Hbody as (w2 & Hout & Hrun).
  eexists. split; [rewrite (Hrun (fun _ => ret failed_to_submit)); reflexivity |].
  cbn. rewrite Hout. reflexivity.
Qed.

(** C8. A submission with a present, non-empty [new_message] during which
    the store raises is answered HTTP 500 with the generic error document;
    the exception is printed to the log and is no part of the response. *)
Theorem C8_store_error_is_a_generic_500
    (request : request_t) (s : string) (w : world) (e : exn) :
  new_message_field request = Some (JStr s) ->
  s <> "" ->
  insert_raises (JStr s) w e ->
  exists w',
    submit request w
    = (inr (Response (jsonify [("error", JStr "Failed to submit message")]) 500), w') /\
    stdout w' = stdout w ++ [("Error submitting message: " ++ str e)%string].
Proof.
  intros Hf Hs Hraise.
  apply (submit_store_error request (JStr s) w e Hf); [| exact Hraise].
  destruct (truthy (JStr s)) eqn:Ht; [reflexivity |].
  apply falsy_str in Ht. contradiction.
Qed.

Lemma C8_witness :
  new_message_field (post "hello") = Some (JStr "hello") /\
  "hello" <> "" /\
  insert_raises (JStr "hello") no_table no_such_table /\
  fst (submit (post "hello") no_table) = inr failed_to_submit.
Proof.
  assert (H : insert_raises (JStr "hello") no_table no_such_table).
  { right. left. repeat eexists. }
  split; [reflexivity | split; [discriminate | split; [exact H |]]].
  destruct (C8_store_error_is_a_generic_500
              (post "hello") "hello" _ _ eq_refl ltac:(discriminate) H)
    as (w' & Hrun & _).
  rewrite Hrun. reflexivity.
Defined.

(** ** A successful submission (C4) *)

(** A submission served by a store that answers, with what is left of the
    fault script afterwards. *)
Lemma submit_ok (k : nat) (request : request_t) (s : string) (w : world) (tb : table) :
  idle w ->
  messages_table w = Some tb ->
  answers (3 + k) w = true ->
  new_message_field request = Some (JStr s) ->
  s <> "" ->
  exists fs,
    clear k fs = true /\
    submit request w
    = (inr (success s),
       World (Some (appended tb s (now w))) [] (now w) fs [] (S (next_cursor w)) []
             (stdout w)
             (calls w ++ [CURSOR; EXECUTE (INSERT_INTO_messages (JStr s)); COMMIT])).
Proof.
  intros (Hu & Ho & Hr) Ht Ha Hf Hs.
  assert (Hv : truthy (JStr s) = true).
  { destruct (truthy (JStr s)) eqn:E; [reflexivity |]. apply falsy_str in E. contradiction. }
  unfold submit, try_except, bind at 1.
  rewrite (read_field _ _ _ Hf), Hv. cbn [negb].
  destruct w as [tbl unc nw fs oc nc rs out cl]. unfold answers in Ha.
  cbn in Hu, Ho, Hr, Ht, Ha. subst unc oc rs tbl.
  py_run. unfold appended.
  three_faults fs; rewrite <- ?app_assoc, ?Nat.eqb_refl; unfold flush; cbn;
    eexists; (split; [| reflexivity]); try assumption; apply clear_nil.
Qed.

(** C4. A submission with a present, non-empty [new_message], served by a
    store that answers its three driver calls and has the table, commits
    exactly one new row (its [id] taken from the table's AUTO_INCREMENT
    counter, its [created_at] from the server clock) and is answered HTTP 200
    with the message echoed and status "success". *)
Theorem C4_submit_inserts_one_row
    (request : request_t) (s : string) (w : world) (tb : table) :
  idle w ->
  messages_table w = Some tb ->
  answers 3 w = true ->
  new_message_field request = Some (JStr s) ->
  s <> "" ->
  exists w',
    submit request w
    = (inr (Response (jsonify [("message", JStr s); ("status", JStr "success")]) 200), w') /\
    messages_table w'
    = Some (Table (columns tb)
                  (rows tb ++ [Row (auto_increment tb) s (now w)])
                  (auto_increment tb + 1)) /\
    uncommitted w' = [].
Proof.
  intros Hi Ht Ha Hf Hs.
  destruct (submit_ok 0 request s w tb Hi Ht Ha Hf Hs) as (fs & _ & Hrun).
  eexists. split; [exact Hrun |]. split; reflexivity.
Qed.

Lemma C4_witness :
  idle one_old_message /\
  messages_table one_old_message = Some (Table messages_columns [Row 1 "old" 90] 2) /\
  answers 3 one_old_message = true /\
  new_message_field (Request false None [("new_message", "hi")] "") = Some (JStr "hi") /\
  "hi" <> "" /\
  messages_table (snd (submit (Request false None [("new_message", "hi")] "") one_old_message))
  = Some (Table messages_columns [Row 1 "old" 90; Row 2 "hi" 100] 3).
Proof.
  assert (Hi : idle one_old_message) by (repeat split).
  split; [exact Hi |]. repeat (split; [reflexivity || discriminate |]).
  destruct (C4_submit_inserts_one_row
              (Request false None [("new_message", "hi")] "") "hi" one_old_message
              (Table messages_columns [Row 1 "old" 90] 2)
              Hi eq_refl eq_refl eq_refl ltac:(discriminate))
    as (w' & Hrun & Htb & _).
  rewrite Hrun. cbn. rewrite Htb. reflexivity.
Defined.

(** ** Cursors (C5) *)

Lemma app_cons_neq {A} (l m : list A) (x : A) : l <> l ++ x :: m.
Proof.
  intro H. apply (f_equal (@List.length A)) in H.
  rewrite length_app in H. cbn in H. lia.
Qed.

Lemma read_field_none (request : request_t) (w : world) :
  new_message_field request = None ->
  exists e,
    (if is_json request
     then (j <- Flask.json request ;; get j "new_message")
     else ret (form_get (form request) "new_message")) w = (inl e, w).
Proof.
  unfold new_message_field. destruct request as [isj b f d]; cbn.
  destruct isj; [| discriminate].
  destruct b as [[] |]; try discriminate; intros _; eexists; reflexivity.
Qed.

Lemma teardown_closes {A} (body : M A) (w : world) :
  open_cursors (snd (app_context body w)) = [].
Proof. unfold app_context. destruct (body w). reflexivity. Qed.

Ltac absurd_log :=
  match goal with
  | H : ?l ++ [_] = ?l |- _ => exfalso; exact (app_one_neq _ _ H)
  | H : ?l = ?l ++ _ :: _ |- _ => exfalso; exact (app_cons_neq _ _ _ H)
  | H : ?l ++ [_] = ?l ++ _ :: _ :: _ |- _ =>
      apply app_inv_head in H; discriminate H
  | H : ?l <> ?l |- _ => exfalso; apply H; reflexivity
  | H : ?x <> ?x -> _ |- _ => clear H
  end.

Ltac leaf :=
  cbn in *; rewrite ?Nat.eqb_refl in *; rewrite <- ?app_assoc in *; cbn in *;
  first
    [ reflexivity
    | match goal with
      | H : _ \/ _ |- _ => destruct H; [discriminate | absurd_log]
      end
    | match goal with
      | H : ~ (_ \/ _) |- _ =>
          exfalso; apply H;
          first [left; reflexivity | right; apply app_one_neq]
      end
    | match goal with
      | H : ~ (exists _ _, _) |- _ =>
          exfalso; apply H; do 2 eexists; reflexivity
      end
    | match goal with
      | H : _ = _ ++ CURSOR :: _ :: _ |- _ =>
          first [ exfalso; exact (app_cons_neq _ _ _ H)
                | apply app_inv_head in H; discriminate H ]
      end ].

Lemma cursor_discipline (e : endpoint) (w w' : world) (r : response) :
  idle w ->
  handler e w = (inr r, w') ->
  (~ caught w w' r -> open_cursors w' = []) /\
  (caught w w' r -> ~ acquired w w' -> open_cursors w' = []) /\
  (caught w w' r -> acquired w w' -> open_cursors w' = [next_cursor w]).
Proof.
  intros (Hu & Ho & Hr) Hrun. unfold caught, acquired.
  destruct e as [| request |]; cbn [handler] in Hrun.
  - destruct w as [tbl unc nw fs oc nc rs out cl]. cbn in Hu, Ho, Hr. subst.
    py_run.
    two_faults fs; try destruct tbl; cbn in Hrun; injection Hrun as <- <-;
      (split; [intros Hn | split; [intros Hc Hna | intros Hc (st & more & Ha)]]);
      leaf.
  - unfold submit, try_except in Hrun. unfold bind at 1 in Hrun.
    destruct (new_message_field request) as [v |] eqn:Hf.
    + rewrite (read_field _ _ _ Hf) in Hrun.
      destruct w as [tbl unc nw fs oc nc rs out cl]. cbn in Hu, Ho, Hr. subst.
      destruct (truthy v); cbn [negb] in Hrun; py_run.
      * three_faults fs; try destruct tbl; cbn in Hrun;
          try destruct (literal v); cbn in Hrun; injection Hrun as <- <-;
          (split; [intros Hn | split; [intros Hc Hna | intros Hc (st & more & Ha)]]);
          leaf.
      * injection Hrun as <- <-.
        (split; [intros Hn | split; [intros Hc Hna | intros Hc (st & more & Ha)]]);
          leaf.
    + destruct (read_field_none request w Hf) as (x & Hx). rewrite Hx in Hrun.
      destruct w as [tbl unc nw fs oc nc rs out cl]. cbn in Hu, Ho, Hr. subst.
      py_run. injection Hrun as <- <-.
      (split; [intros Hn | split; [intros Hc Hna | intros Hc (st & more & Ha)]]);
        leaf.
  - destruct w as [tbl unc nw fs oc nc rs out cl]. cbn in Hu, Ho, Hr. subst.
    py_run.
    two_faults fs; cbn in Hrun; injection Hrun as <- <-;
      (split; [intros Hn | split; [intros Hc Hna | intros Hc (st & more & Ha)]]);
      leaf.
Qed.

(** C5, as the code has it.  A handler closes the cursor it obtained when
    none of its [except] clauses ran; a request that fails before it holds a
    cursor leaves none open; a handler whose statement or commit raised
    returns with its cursor still open.  Whatever the path, no cursor is open
    once the request's context has been torn down. *)
Theorem C5_cursor_closed_on_success_else_by_teardown
    (e : endpoint) (w w' : world) (r : response) :
  idle w ->
  handler e w = (inr r, w') ->
  (~ caught w w' r -> open_cursors w' = []) /\
  (caught w w' r -> ~ acquired w w' -> open_cursors w' = []) /\
  (caught w w' r -> acquired w w' -> open_cursors w' = [next_cursor w]) /\
  open_cursors (snd (serve (handler e) w)) = [].
Proof.
  intros Hi Hrun.
  destruct (cursor_discipline e w w' r Hi Hrun) as (H1 & H2 & H3).
  repeat split; try assumption.
  apply teardown_closes.
Qed.

Lemma C5_witness :
  idle no_table /\
  handler GET_index no_table
  = (inr (ok (render_template "index.html" [])), no_table_after_index) /\
  open_cursors (snd (serve (handler GET_index) no_table)) = [].
Proof.
  assert (Hi : idle no_table) by (repeat split).
  assert (Hrun : handler GET_index no_table
                 = (inr (ok (render_template "index.html" [])), no_table_after_index))
    by reflexivity.
  split; [exact Hi |]. split; [exact Hrun |].
  exact (proj2 (proj2 (proj2
    (C5_cursor_closed_on_success_else_by_teardown GET_index no_table _ _ Hi Hrun)))).
Defined.

(** C5 as stated fails on the failure path: with the table missing, the
    SELECT of [index] raises after the cursor was obtained, and the handler
    returns without closing it. *)
Lemma C5_counterexample :
  idle no_table /\
  fst (index no_table) = inr (ok (render_template "index.html" [])) /\
  open_cursors (snd (index no_table)) = [0%nat] /\
  open_cursors (snd (index no_table)) <> [].
Proof.
  repeat split. discriminate.
Qed.

(** ** Schema initialization (C9) *)

Lemma flush_nothing (t : table) : flush t [] = t.
Proof. destruct t as [c r a]. unfold flush. cbn. rewrite app_nil_r. reflexivity. Qed.

(** [init_db] swallows whatever is raised. *)
Lemma init_db_total (w : world) : fst (init_db w) = inr tt.
Proof.
  destruct w as [tbl unc nw fs oc nc rs out cl]. py_run.
  three_faults fs; destruct tbl; reflexivity.
Qed.

(** [init_db] leaves the world between two requests. *)
Lemma init_db_idle (w : world) : idle (snd (init_db w)).
Proof.
  destruct w as [tbl unc nw fs oc nc rs out cl]. py_run.
  three_faults fs; destruct tbl; repeat split.
Qed.

(** An existing table is left as it is, whatever the server does. *)
Lemma init_db_keeps (w : world) (t : table) :
  uncommitted w = [] ->
  messages_table w = Some t ->
  messages_table (snd (init_db w)) = Some t.
Proof.
  destruct w as [tbl unc nw fs oc nc rs out cl]. cbn. intros -> ->. py_run.
  three_faults fs; rewrite ?flush_nothing; reflexivity.
Qed.

(** A missing table is created when the server answers. *)
Lemma init_db_creates (w : world) :
  messages_table w = None ->
  answers 3 w = true ->
  messages_table (snd (init_db w)) = Some (Table messages_columns [] 1).
Proof.
  destruct w as [tbl unc nw fs oc nc rs out cl]. unfold answers. cbn.
  intros -> Ha. py_run.
  three_faults fs; reflexivity.
Qed.

(** C9. Schema initialization is idempotent.  An existing [messages] table
    comes out of one call and of two calls as it went in, columns and rows,
    whatever the server does.  When the server answers, one call and two
    calls leave the same table: the one that was there, or else a new one
    with the declared columns. *)
Theorem C9_init_db_idempotent (w : world) :
  idle w ->
  (forall t, messages_table w = Some t ->
     messages_table (snd (init_db w)) = Some t /\
     messages_table (snd (init_db (snd (init_db w)))) = Some t) /\
  (answers 3 w = true ->
   exists t',
     messages_table (snd (init_db w)) = Some t' /\
     messages_table (snd (init_db (snd (init_db w)))) = Some t' /\
     match messages_table w with
     | Some t => t' = t
     | None => t' = Table messages_columns [] 1
     end).
Proof.
  intros Hi.
  assert (Hkeep : forall t, messages_table w = Some t ->
             messages_table (snd (init_db w)) = Some t /\
             messages_table (snd (init_db (snd (init_db w)))) = Some t).
  { intros t Ht.
    assert (H1 : messages_table (snd (init_db w)) = Some t)
      by (apply init_db_keeps; [apply Hi | exact Ht]).
    split; [exact H1 |].
    apply init_db_keeps; [apply init_db_idle | exact H1]. }
  split; [exact Hkeep |].
  intros Ha. destruct (messages_table w) as [t |] eqn:Ht.
  - exists t. destruct (Hkeep t eq_refl) as [H1 H2]. auto.
  - exists (Table messages_columns [] 1).
    assert (H1 : messages_table (snd (init_db w)) = Some (Table messages_columns [] 1))
      by (apply init_db_creates; assumption).
    split; [exact H1 |]. split; [| reflexivity].
    apply init_db_keeps; [apply init_db_idle | exact H1].
Qed.

Lemma C9_witness :
  idle no_table /\
  answers 3 no_table = true /\
  messages_table (snd (init_db no_table)) = Some (Table messages_columns [] 1) /\
  messages_table (snd (init_db (snd (init_db no_table)))) = Some (Table messages_columns [] 1).
Proof.
  assert (Hi : idle no_table) by (repeat split).
  split; [exact Hi |]. split; [reflexivity |].
  destruct (proj2 (C9_init_db_idempotent no_table Hi) eq_refl) as (t' & H1 & H2 & H3).
  cbn in H3. subst t'. split; assumption.
Defined.

(** ** ORDER BY created_at DESC LIMIT 50 *)

Section Ordering.

Lemma insert_desc_perm (r : row) (l : list row) :
  Permutation (insert_desc r l) (r :: l).
Proof.
  induction l as [| x l IH]; cbn; [reflexivity |].
  destruct (created_at r <? created_at x); [| reflexivity].
  rewrite IH. apply perm_swap.
Qed.

Lemma order_by_perm (l : list row) :
  Permutation (order_by_created_at_desc l) l.
Proof.
  induction l as [| x l IH]; cbn; [reflexivity |].
  rewrite insert_desc_perm. apply perm_skip. exact IH.
Qed.

Lemma insert_desc_sorted (r : row) (l : list row) :
  StronglySorted not_older l -> StronglySorted not_older (insert_desc r l).
Proof.
  induction l as [| x l IH]; intros Hs; cbn.
  - constructor; constructor.
  - inversion Hs as [| ? ? Hl Hx]; subst.
    destruct (created_at r <? created_at x) eqn:E.
    + apply Z.ltb_lt in E. constructor; [apply IH; exact Hl |].
      apply Forall_forall. intros y Hy.
      apply (Permutation_in _ (insert_desc_perm r l)) in Hy.
      destruct Hy as [<- | Hy]; [unfold not_older; lia |].
      rewrite Forall_forall in Hx. apply Hx. exact Hy.
    + apply Z.ltb_ge in E. constructor; [exact Hs |].
      constructor; [unfold not_older; lia |].
      eapply Forall_impl; [| exact Hx]. unfold not_older. intros y Hy. cbn in Hy. lia.
Qed.

Lemma order_by_sorted (l : list row) :
  StronglySorted not_older (order_by_created_at_desc l).
Proof.
  induction l as [| x l IH]; cbn; [constructor |].
  apply insert_desc_sorted. exact IH.
Qed.

Lemma firstn_sorted (n : nat) (l : list row) :
  StronglySorted not_older l -> StronglySorted not_older (firstn n l).
Proof.
  revert n. induction l as [| x l IH]; intros n Hs; destruct n; cbn; try constructor.
  - inversion Hs; subst. apply IH. assumption.
  - inversion Hs as [| ? ? _ Hx]; subst.
    rewrite Forall_forall in *. intros y Hy. apply Hx.
    revert Hy. clear. revert n. induction l as [| z l IH]; intros n Hy; destruct n; cbn in *;
      try contradiction.
    destruct Hy as [-> | Hy]; [left; reflexivity | right; eauto].
Qed.

(** A row newer than every row of the table comes first once appended. *)
Lemma order_by_newest (l : list row) (r : row) :
  Forall (fun x => created_at x < created_at r) l ->
  order_by_created_at_desc (l ++ [r]) = r :: order_by_created_at_desc l.
Proof.
  unfold order_by_created_at_desc. rewrite fold_right_app. cbn.
  induction 1 as [| x l Hx _ IH]; cbn; [reflexivity |].
  rewrite IH. cbn. apply Z.ltb_lt in Hx. rewrite Hx. reflexivity.
Qed.

End Ordering.

(** ** Listing (C1, C2) *)

Lemma firstn_incl {A} (n : nat) (l : list A) : incl (firstn n l) l.
Proof.
  intros x Hx. rewrite <- (firstn_skipn n l). apply in_or_app. left. exact Hx.
Qed.

(** What [index] lists, in every world: the messages of at most 50 rows of
    the table, arranged by descending [created_at]. *)
Lemma index_lists (w : world) :
  exists rs,
    fst (index w) = inr (Response (render_template "index.html" (map message rs)) 200) /\
    (List.length rs <= 50)%nat /\
    StronglySorted not_older rs /\
    (forall tb, messages_table w = Some tb -> incl rs (rows tb ++ uncommitted w)).
Proof.
  destruct w as [tbl unc nw fs oc nc rs0 out cl].
  assert (Hnone : exists rs,
             @inr exn _ (ok (render_template "index.html" []))
             = inr (Response (render_template "index.html" (map message rs)) 200) /\
             (List.length rs <= 50)%nat /\
             StronglySorted not_older rs /\
             (forall tb, tbl = Some tb -> incl rs (rows tb ++ unc))).
  { exists []. repeat split; cbn; try lia; try constructor. intros tb _ x []. }
  assert (Hsome : forall tb, tbl = Some tb -> exists rs,
             @inr exn _ (ok (render_template "index.html"
                   (map message (firstn LIMIT (order_by_created_at_desc (rows tb ++ unc))))))
             = inr (Response (render_template "index.html" (map message rs)) 200) /\
             (List.length rs <= 50)%nat /\
             StronglySorted not_older rs /\
             (forall tb', tbl = Some tb' -> incl rs (rows tb' ++ unc))).
  { intros tb ->. exists (firstn LIMIT (order_by_created_at_desc (rows tb ++ unc))).
    split; [reflexivity |]. split; [apply firstn_le_length |].
    split; [apply firstn_sorted, order_by_sorted |].
    intros tb' [= <-] x Hx. apply firstn_incl in Hx.
    exact (Permutation_in _ (order_by_perm _) Hx). }
  py_run.
  two_faults fs; try exact Hnone;
    destruct tbl as [tb |]; cbn; rewrite ?Nat.eqb_refl;
    try exact Hnone; exact (Hsome tb eq_refl).
Qed.

(** A listing served by a store that answers and has the table. *)
Lemma index_ok (w : world) (tb : table) :
  idle w ->
  messages_table w = Some tb ->
  answers 2 w = true ->
  fst (serve index w)
  = inr (ok (render_template "index.html"
               (map message (firstn LIMIT (order_by_created_at_desc (rows tb)))))).
Proof.
  intros (Hu & Ho & Hr) Ht Ha.
  destruct w as [tbl unc nw fs oc nc rs out cl]. unfold answers in Ha.
  cbn in Hu, Ho, Hr, Ht, Ha. subst.
  py_run. two_faults fs; rewrite ?Nat.eqb_refl, ?app_nil_r; reflexivity.
Qed.

(** A submission served, context included. *)
Lemma serve_submit_ok (k : nat) (request : request_t) (s : string) (w : world) (tb : table) :
  idle w ->
  messages_table w = Some tb ->
  answers (3 + k) w = true ->
  new_message_field request = Some (JStr s) ->
  s <> "" ->
  exists w',
    serve (submit request) w = (inr (success s), w') /\
    idle w' /\
    messages_table w' = Some (appended tb s (now w)) /\
    now w' = now w /\
    answers k w' = true.
Proof.
  intros Hi Ht Ha Hf Hs.
  destruct (submit_ok k request s w tb Hi Ht Ha Hf Hs) as (fs & Hfs & Hrun).
  unfold serve, app_context. rewrite Hrun. cbn.
  eexists. split; [reflexivity |]. repeat split. exact Hfs.
Qed.

Lemma answers_elapse (k : nat) (d : Z) (w : world) :
  answers k (elapse d w) = answers k w.
Proof. reflexivity. Qed.

Lemma idle_elapse (d : Z) (w : world) : idle w -> idle (elapse d w).
Proof. intros H. exact H. Qed.

Lemma answers_weaken (k j : nat) (w : world) :
  answers (j + k) w = true -> answers k w = true.
Proof.
  unfold answers. induction j as [| j IH]; cbn [Nat.add]; intros H; [exact H |].
  apply IH. apply clear_weaken. exact H.
Qed.

(** C1, as the code has it.  On a store that answers and has the table, and
    whose rows are all older than the server clock, a message submitted and
    committed is the first of the listing that follows, however long after. *)
Theorem C1_submitted_message_listed_first
    (request : request_t) (s : string) (w : world) (tb : table) (later : Z) :
  idle w ->
  messages_table w = Some tb ->
  answers 5 w = true ->
  Forall (fun r => created_at r < now w) (rows tb) ->
  new_message_field request = Some (JStr s) ->
  s <> "" ->
  exists rest,
    listed (fst (serve index (elapse later (snd (serve (submit request) w)))))
    = s :: rest.
Proof.
  intros Hi Ht Ha Hold Hf Hs.
  destruct (serve_submit_ok 2 request s w tb Hi Ht Ha Hf Hs)
    as (w' & Hrun & Hi' & Ht' & _ & Ha').
  rewrite Hrun. cbn [snd].
  rewrite (index_ok (elapse later w') (appended tb s (now w)));
    [| apply idle_elapse; exact Hi' | exact Ht' | exact Ha'].
  cbn [listed ok rows appended].
  rewrite order_by_newest by exact Hold.
  cbn. eexists. reflexivity.
Qed.

Lemma C1_witness :
  idle one_old_message /\
  messages_table one_old_message = Some (Table messages_columns [Row 1 "old" 90] 2) /\
  answers 5 one_old_message = true /\
  Forall (fun r => created_at r < now one_old_message) [Row 1 "old" 90] /\
  new_message_field (post "hello") = Some (JStr "hello") /\
  "hello" <> "" /\
  exists rest,
    listed (fst (serve index (elapse 0 (snd (serve (submit (post "hello")) one_old_message)))))
    = "hello" :: rest.
Proof.
  assert (Hi : idle one_old_message) by (repeat split).
  assert (Hold : Forall (fun r => created_at r < now one_old_message) [Row 1 "old" 90])
    by (repeat constructor).
  split; [exact Hi |]. split; [reflexivity |]. split; [reflexivity |].
  split; [exact Hold |]. split; [reflexivity |]. split; [discriminate |].
  exact (C1_submitted_message_listed_first
           (post "hello") "hello" one_old_message
           (Table messages_columns [Row 1 "old" 90] 2) 0
           Hi eq_refl eq_refl Hold eq_refl ltac:(discriminate)).
Defined.

(** C1 as stated fails when a row of the table carries the timestamp the
    new row gets: ORDER BY created_at DESC does not tell them apart and the
    older message is listed first. *)
Lemma C1_counterexample :
  idle same_second /\
  fst (serve (submit (post "hello")) same_second) = inr (success "hello") /\
  listed (fst (serve index (snd (serve (submit (post "hello")) same_second))))
  = ["old"; "hello"] /\
  hd_error (listed (fst (serve index (snd (serve (submit (post "hello")) same_second)))))
  <> Some "hello".
Proof.
  repeat split. discriminate.
Qed.

(** The rows [submit_each] adds, and the listing that follows. *)
Lemma submit_each_ok (batch : list (Z * string)) :
  forall (k : nat) (w : world) (tb : table),
    idle w ->
    messages_table w = Some tb ->
    answers (3 * List.length batch + k) w = true ->
    Forall (fun r => created_at r <= now w) (rows tb) ->
    Forall (fun p => 0 < fst p /\ snd p <> "") batch ->
    exists tb',
      idle (submit_each batch w) /\
      messages_table (submit_each batch w) = Some tb' /\
      answers k (submit_each batch w) = true /\
      map message (order_by_created_at_desc (rows tb'))
      = rev (map snd batch) ++ map message (order_by_created_at_desc (rows tb)).
Proof.
  induction batch as [| [wait text] batch IH]; intros k w tb Hi Ht Ha Hold Hb.
  - exists tb. cbn. repeat split; try apply Hi; assumption.
  - inversion Hb as [| ? ? [Hwait Htext] Hb']; subst. cbn in Hwait, Htext.
    cbn [submit_each].
    replace (3 * List.length ((wait, text) :: batch) + k)%nat
      with (3 + (3 * List.length batch + k))%nat in Ha by (cbn [List.length]; lia).
    destruct (serve_submit_ok (3 * List.length batch + k) (post text) text
                (elapse wait w) tb (idle_elapse _ _ Hi) Ht Ha eq_refl Htext)
      as (w' & Hrun & Hi' & Ht' & Hnow & Ha').
    rewrite Hrun. cbn [snd].
    destruct (IH k w' _ Hi' Ht' Ha') as (tb' & Hi'' & Ht'' & Ha'' & Hlist).
    + cbn [rows appended]. rewrite Hnow. cbn.
      apply Forall_app. split.
      * eapply Forall_impl; [| exact Hold]. cbn. intros r Hr. lia.
      * repeat constructor. cbn. lia.
    + exact Hb'.
    + exists tb'. repeat split; try apply Hi''; try assumption.
      rewrite Hlist. cbn [rows appended].
      rewrite order_by_newest.
      * cbn. rewrite <- app_assoc. reflexivity.
      * eapply Forall_impl; [| exact Hold]. cbn. intros r Hr. lia.
Qed.

(** The listing after a batch of submissions, each in a later second than
    the one before and than every row already there. *)
Lemma listing_after_batch (batch : list (Z * string)) (w : world) (tb : table) :
  idle w ->
  messages_table w = Some tb ->
  answers (3 * List.length batch + 2) w = true ->
  Forall (fun r => created_at r <= now w) (rows tb) ->
  Forall (fun p => 0 < fst p /\ snd p <> "") batch ->
  (50 <= List.length batch)%nat ->
  listed (fst (serve index (submit_each batch w))) = firstn 50 (rev (map snd batch)).
Proof.
  intros Hi Ht Ha Hold Hb Hlen.
  destruct (submit_each_ok batch 2 w tb Hi Ht Ha Hold Hb)
    as (tb' & Hi' & Ht' & Ha' & Hlist).
  rewrite (index_ok _ tb' Hi' Ht' Ha'). cbn [listed ok].
  rewrite <- firstn_map, Hlist, firstn_app.
  replace (LIMIT - List.length (rev (map snd batch)))%nat with 0%nat
    by (rewrite length_rev, length_map; unfold LIMIT; lia).
  cbn [firstn]. rewrite app_nil_r. reflexivity.
Qed.

(** C2, as the code has it.  In every world [index] lists the messages of at
    most 50 rows of the table, arranged by descending [created_at]; served by
    a store that answers, they are the first 50 of the whole table so
    arranged.  After 60
    submissions, each made in a later second than the one before and than
    every row already in the table, to a store that answers, it lists exactly
    50 messages: the 50 submitted last, the most recent first. *)
Theorem C2_listing_newest_50 (w : world) :
  (exists rs,
      fst (index w) = inr (Response (render_template "index.html" (map message rs)) 200) /\
      (List.length rs <= 50)%nat /\
      StronglySorted not_older rs /\
      (forall tb, messages_table w = Some tb -> incl rs (rows tb ++ uncommitted w))) /\
  (forall tb : table,
      idle w ->
      messages_table w = Some tb ->
      answers 2 w = true ->
      exists arranged,
        Permutation arranged (rows tb) /\
        StronglySorted not_older arranged /\
        listed (fst (serve index w)) = map message (firstn 50 arranged)) /\
  (forall (tb : table) (batch : list (Z * string)),
      idle w ->
      messages_table w = Some tb ->
      answers (3 * 60 + 2) w = true ->
      Forall (fun r => created_at r <= now w) (rows tb) ->
      List.length batch = 60%nat ->
      Forall (fun p => 0 < fst p /\ snd p <> "") batch ->
      listed (fst (serve index (submit_each batch w))) = firstn 50 (rev (map snd batch)) /\
      List.length (listed (fst (serve index (submit_each batch w)))) = 50%nat).
Proof.
  split; [apply index_lists |].
  split.
  { intros tb Hi Ht Ha. exists (order_by_created_at_desc (rows tb)).
    split; [apply order_by_perm |]. split; [apply order_by_sorted |].
    rewrite (index_ok w tb Hi Ht Ha). reflexivity. }
  intros tb batch Hi Ht Ha Hold Hlen Hb.
  assert (H : listed (fst (serve index (submit_each batch w)))
              = firstn 50 (rev (map snd batch))).
  { apply (listing_after_batch batch w tb); try assumption.
    - rewrite Hlen. exact Ha.
    - rewrite Hlen. lia. }
  split; [exact H |].
  rewrite H, length_firstn, length_rev, length_map, Hlen. reflexivity.
Qed.

Lemma C2_witness :
  idle empty_table /\
  messages_table empty_table = Some (Table messages_columns [] 1) /\
  answers (3 * 60 + 2) empty_table = true /\
  List.length (sixty 1) = 60%nat /\
  listed (fst (serve index (submit_each (sixty 1) empty_table)))
  = firstn 50 (rev (map snd (sixty 1))).
Proof.
  assert (Hi : idle empty_table) by (repeat split).
  split; [exact Hi |]. split; [reflexivity |]. split; [reflexivity |].
  split; [reflexivity |].
  refine (proj1 (proj2 (proj2 (C2_listing_newest_50 empty_table))
                   (Table messages_columns [] 1) (sixty 1)
                   Hi eq_refl eq_refl (Forall_nil _) eq_refl _)).
  unfold sixty. apply Forall_map, Forall_forall. intros i _. cbn [fst snd].
  split; [lia | discriminate].
Defined.

(** C2 as stated fails when the 60 messages are submitted within one second:
    all carry the same [created_at], the listing keeps them in insertion
    order and LIMIT 50 cuts off the ten submitted last. *)
Lemma C2_counterexample :
  idle empty_table /\
  NoDup (map snd (sixty 0)) /\
  listed (fst (serve index (submit_each (sixty 0) empty_table)))
  = firstn 50 (map snd (sixty 0)) /\
  listed (fst (serve index (submit_each (sixty 0) empty_table)))
  <> firstn 50 (rev (map snd (sixty 0))).
Proof.
  split; [repeat split |].
  split.
  - assert (E : nodup string_dec (map snd (sixty 0)) = map snd (sixty 0))
      by (vm_compute; reflexivity).
    rewrite <- E. apply NoDup_nodup.
  - split; [vm_compute; reflexivity |].
    vm_compute. discriminate.
Qed.


(** * Further properties of the handlers *)

(** ** What [submit] reads *)

(** [submit] looks at the request through its [new_message] field only: a
    form and a JSON object carrying the same value are served alike, in
    every world. *)
Theorem submit_by_field (r1 r2 : request_t) (v : Json.json) (w : world) :
  new_message_field r1 = Some v ->
  new_message_field r2 = Some v ->
  submit r1 w = submit r2 w.
Proof.
  intros H1 H2.
  assert (H : forall r, new_message_field r = Some v ->
             submit r w = submit (Request true (Some (JObj [("new_message", v)])) [] "") w).
  { intros r Hr. unfold submit at 1. unfold try_except at 1. unfold bind at 1.
    rewrite (read_field _ _ _ Hr). reflexivity. }
  rewrite (H r1 H1), (H r2 H2). reflexivity.
Qed.

Lemma submit_by_field_witness :
  new_message_field (Request false None [("new_message", "hi")] "") = Some (JStr "hi") /\
  new_message_field (post "hi") = Some (JStr "hi") /\
  submit (Request false None [("new_message", "hi")] "") one_old_message
  = submit (post "hi") one_old_message.
Proof.
  split; [reflexivity |]. split; [reflexivity |].
  apply (submit_by_field _ _ (JStr "hi")); reflexivity.
Defined.

(** Validation is Python truthiness: any falsy value under [new_message]
    (null, false, 0, the empty string, an empty array or object) is answered
    400, and the world is left as it was. *)
Theorem submit_falsy_is_rejected (request : request_t) (v : Json.json) (w : world) :
  new_message_field request = Some v ->
  truthy v = false ->
  submit request w = (inr message_is_required, w).
Proof.
  intros Hf Hv. unfold submit, try_except. unfold bind at 1.
  rewrite (read_field _ _ _ Hf), Hv. reflexivity.
Qed.

Lemma submit_falsy_is_rejected_witness :
  new_message_field (Request true (Some (JObj [("new_message", JNum 0)])) [] "") = Some (JNum 0) /\
  truthy (JNum 0) = false /\
  submit (Request true (Some (JObj [("new_message", JNum 0)])) [] "") empty_table
  = (inr message_is_required, empty_table).
Proof.
  split; [reflexivity |]. split; [reflexivity |].
  apply (submit_falsy_is_rejected _ (JNum 0)); reflexivity.
Defined.



(** ** What the handlers answer *)

Lemma handlers_never_raise_submit (request : request_t) (w : world) :
  exists r w', submit request w = (inr r, w').
Proof.
  unfold submit, try_except. unfold bind at 1.
  destruct (new_message_field request) as [v |] eqn:Hf.
  - rewrite (read_field _ _ _ Hf).
    destruct w as [tbl unc nw fs oc nc rs out cl].
    destruct (truthy v); cbn [negb]; py_run; [| eauto].
    three_faults fs; try destruct tbl; cbn; try destruct (literal v); cbn; eauto.
  - destruct (read_field_none request w Hf) as (x & Hx). rewrite Hx.
    py_run. eauto.
Qed.

(** No exception leaves a handler: [index] always answers 200, [health] 200
    or 500, [submit] 200, 400 or 500. *)
Theorem handlers_always_answer (e : endpoint) (w : world) :
  exists r w',
    handler e w = (inr r, w') /\
    match e with
    | GET_index => status r = 200
    | POST_submit _ => status r = 200 \/ status r = 400 \/ status r = 500
    | GET_health => status r = 200 \/ status r = 500
    end.
Proof.
  destruct e as [| request |]; cbn [handler].
  - destruct (index_total w) as (ms & w' & H). rewrite H. eauto.
  - unfold submit, try_except. unfold bind at 1.
    destruct (new_message_field request) as [v |] eqn:Hf.
    + rewrite (read_field _ _ _ Hf).
      destruct w as [tbl unc nw fs oc nc rs out cl].
      destruct (truthy v); cbn [negb]; py_run; [| eauto 6].
      three_faults fs; try destruct tbl; cbn; try destruct (literal v); cbn; eauto 6.
    + destruct (read_field_none request w Hf) as (x & Hx). rewrite Hx.
      py_run. eauto 6.
  - destruct w as [tbl unc nw fs oc nc rs out cl]. py_run.
    two_faults fs; eauto 6.
Qed.

Lemma reads_keep_table (w : world) :
  (messages_table (snd (index w)) = messages_table w /\
   uncommitted (snd (index w)) = uncommitted w /\
   now (snd (index w)) = now w) /\
  (messages_table (snd (health w)) = messages_table w /\
   uncommitted (snd (health w)) = uncommitted w /\
   now (snd (health w)) = now w).
Proof.
  destruct w as [tbl unc nw fs oc nc rs out cl]. py_run.
  split; two_faults fs; try destruct tbl; cbn; repeat split.
Qed.

(** The two GET handlers read: whatever the server does, they leave the
    table, the uncommitted rows and the clock as they were. *)
Theorem get_handlers_do_not_write (w : world) :
  (messages_table (snd (index w)) = messages_table w /\
   uncommitted (snd (index w)) = uncommitted w /\
   now (snd (index w)) = now w) /\
  (messages_table (snd (health w)) = messages_table w /\
   uncommitted (snd (health w)) = uncommitted w /\
   now (snd (health w)) = now w).
Proof. exact (reads_keep_table w). Qed.

(** ** What [submit] commits *)

(** The outcomes of [submit] in a world given by its fields, one goal each;
    [Hs] is the run and [fs] the fault script. *)
Ltac submit_cases request fs Hs :=
  unfold submit, try_except in Hs; unfold bind at 1 in Hs;
  let Hf := fresh "Hf" in
  destruct (new_message_field request) as [v |] eqn:Hf;
  [ rewrite (read_field _ _ _ Hf) in Hs;
    destruct (truthy v) eqn:Hv; cbn [negb] in Hs; py_run;
    [ three_faults fs; cbn in Hs; try destruct (literal v) eqn:Hl; cbn in Hs
    | ]
  | match type of Hs with
    | context [World ?a ?b ?c ?d ?e ?f ?g ?h ?i] =>
        let x := fresh "x" in
        let Hx := fresh "Hx" in
        destruct (read_field_none request (World a b c d e f g h i) Hf) as (x & Hx);
        rewrite Hx in Hs; py_run
    end ].

Lemma submit_outcome
    (request : request_t) (w w' : world) (tb : table) (r : response) :
  idle w ->
  messages_table w = Some tb ->
  serve (submit request) w = (inr r, w') ->
  (status r = 200 ->
   exists v text,
     new_message_field request = Some v /\
     truthy v = true /\
     literal v = inr text /\
     r = Response (jsonify [("message", v); ("status", JStr "success")]) 200 /\
     messages_table w' = Some (appended tb text (now w))) /\
  (status r <> 200 ->
   exists n,
     auto_increment tb <= n <= auto_increment tb + 1 /\
     messages_table w' = Some (Table (columns tb) (rows tb) n)) /\
  (status r = 400 ->
   messages_table w' = Some tb /\ calls w' = calls w).
Proof.
  intros (Hu & Ho & Hr) Ht Hrun.
  unfold serve, app_context in Hrun.
  destruct (submit request w) as [res w1] eqn:Hs.
  destruct w as [tbl unc nw fs oc nc rs out cl]. cbn in Hu, Ho, Hr, Ht. subst.
  submit_cases request fs Hs;
    injection Hs as <- <-; cbn in Hrun; injection Hrun as <- <-; cbn.
  all: split; [intros H200; try discriminate
              | split; [intros Hn; try (exfalso; apply Hn; reflexivity)
                       | intros H400; try discriminate]].
  all: unfold appended, flush; cbn; rewrite ?app_nil_r.
  all: try (exists v; eexists; split; [reflexivity |]; split; [exact Hv |];
            split; [exact Hl |]; split; reflexivity).
  all: try (split; reflexivity).
  all: destruct tb as [c rws a]; cbn; eexists; split; [| reflexivity]; lia.
Qed.

(** On a store that has the table, for a request whose [new_message], when
    present, is a string: a 200 from [submit] means the row with that string
    was committed, with its [id] from the counter and its [created_at] from
    the server clock, and the answer echoes the string; a 400 means no driver
    call was made and the table is what it was. *)
Theorem submit_200_means_committed
    (request : request_t) (w w' : world) (tb : table) (r : response) :
  idle w ->
  messages_table w = Some tb ->
  (forall v, new_message_field request = Some v -> v = JNull \/ exists s, v = JStr s) ->
  serve (submit request) w = (inr r, w') ->
  (status r = 200 ->
   exists s,
     new_message_field request = Some (JStr s) /\
     s <> "" /\
     r = success s /\
     messages_table w' = Some (appended tb s (now w))) /\
  (status r = 400 ->
   messages_table w' = Some tb /\ calls w' = calls w).
Proof.
  intros Hi Ht Hstr Hrun.
  destruct (submit_outcome request w w' tb r Hi Ht Hrun) as (H200 & _ & H400).
  split; [| exact H400].
  intros E. destruct (H200 E) as (v & text & Hf & Hv & Hl & Hr & Htb).
  destruct (Hstr v Hf) as [-> | (s & ->)]; [discriminate Hv |].
  cbn in Hl. injection Hl as <-.
  exists s. repeat split; try assumption.
  intros ->. discriminate Hv.
Qed.

Lemma submit_200_means_committed_witness :
  idle one_old_message /\
  messages_table one_old_message = Some (Table messages_columns [Row 1 "old" 90] 2) /\
  (forall v, new_message_field (post "hi") = Some v -> v = JNull \/ exists s, v = JStr s) /\
  serve (submit (post "hi")) one_old_message
  = (inr (success "hi"),
     World (Some (Table messages_columns [Row 1 "old" 90; Row 2 "hi" 100] 3))
           [] 100 [] [] 1 [] []
           [CURSOR; EXECUTE (INSERT_INTO_messages (JStr "hi")); COMMIT]) /\
  exists s,
    new_message_field (post "hi") = Some (JStr s) /\
    s <> "" /\
    success "hi" = success s /\
    Some (Table messages_columns [Row 1 "old" 90; Row 2 "hi" 100] 3)
    = Some (appended (Table messages_columns [Row 1 "old" 90] 2) s 100).
Proof.
  assert (Hi : idle one_old_message) by (repeat split).
  assert (Hstr : forall v, new_message_field (post "hi") = Some v ->
                           v = JNull \/ exists s, v = JStr s).
  { intros v [= <-]. right. exists "hi". reflexivity. }
  split; [exact Hi |]. split; [reflexivity |]. split; [exact Hstr |].
  split; [reflexivity |].
  exact (proj1 (submit_200_means_committed (post "hi") one_old_message _ _ _
                  Hi eq_refl Hstr eq_refl) eq_refl).
Defined.

(** ** What no request does to the table *)

Lemma extends_refl (t : table) : extends t t.
Proof.
  repeat split; [exists []; rewrite app_nil_r; reflexivity | lia].
Qed.

Lemma extends_trans (t1 t2 t3 : table) :
  extends t1 t2 -> extends t2 t3 -> extends t1 t3.
Proof.
  intros (Hc1 & (m1 & Hr1) & Ha1) (Hc2 & (m2 & Hr2) & Ha2).
  repeat split; [congruence | | lia].
  exists (m1 ++ m2). rewrite Hr2, Hr1, app_assoc. reflexivity.
Qed.

Lemma serve_idle (h : M response) (w : world) : idle (snd (serve h w)).
Proof. unfold serve, app_context. destruct (h w). repeat split. Qed.

Lemma serve_table (h : M response) (w : world) :
  messages_table (snd (serve h w)) = messages_table (snd (h w)).
Proof. unfold serve, app_context. destruct (h w). reflexivity. Qed.

Lemma serve_now (h : M response) (w : world) :
  now (snd (serve h w)) = now (snd (h w)).
Proof. unfold serve, app_context. destruct (h w). reflexivity. Qed.

(** One request: the table is neither created nor dropped, and what was
    committed stays, in place. *)
Lemma step_extends (e : endpoint) (w : world) :
  match messages_table w with
  | Some t =>
      exists t', messages_table (snd (serve (handler e) w)) = Some t' /\ extends t t'
  | None => messages_table (snd (serve (handler e) w)) = None
  end.
Proof.
  rewrite serve_table.
  destruct e as [| request |]; cbn [handler].
  - rewrite (proj1 (proj1 (reads_keep_table w))).
    destruct (messages_table w) as [t |]; [| reflexivity].
    exists t. split; [reflexivity | apply extends_refl].
  - destruct (submit request w) as [res w1] eqn:Hs.
    destruct w as [tbl unc nw fs oc nc rs out cl].
    submit_cases request fs Hs; try destruct tbl as [t |]; cbn in Hs;
      try destruct (literal v); cbn in Hs; injection Hs as <- <-; cbn;
      try reflexivity;
      (eexists; split; [reflexivity |]); unfold extends, flush; cbn;
      repeat split; try lia; eexists; try reflexivity;
      try (rewrite app_nil_r; reflexivity).
  - rewrite (proj1 (proj2 (reads_keep_table w))).
    destruct (messages_table w) as [t |]; [| reflexivity].
    exists t. split; [reflexivity | apply extends_refl].
Qed.

(** Over any traffic, the table is append-only: no request creates or drops
    it, changes its columns, or removes, rewrites or reorders a committed
    row. *)
Theorem traffic_is_append_only (requests : list (Z * endpoint)) (w : world) :
  match messages_table w with
  | Some t =>
      exists t', messages_table (traffic requests w) = Some t' /\ extends t t'
  | None => messages_table (traffic requests w) = None
  end.
Proof.
  revert w. induction requests as [| [wait e] requests IH]; intros w; cbn [traffic].
  - destruct (messages_table w) as [t |]; [| reflexivity].
    exists t. split; [reflexivity | apply extends_refl].
  - pose proof (step_extends e (elapse wait w)) as Hstep.
    pose proof (IH (snd (serve (handler e) (elapse wait w)))) as Hrest.
    change (messages_table (elapse wait w)) with (messages_table w) in Hstep.
    destruct (messages_table w) as [t |].
    + destruct Hstep as (t1 & H1 & E1). rewrite H1 in Hrest.
      destruct Hrest as (t2 & H2 & E2).
      exists t2. split; [exact H2 | exact (extends_trans _ _ _ E1 E2)].
    + rewrite Hstep in Hrest. exact Hrest.
Qed.

(** ** Keys *)

Lemma well_keyed_appended (t : table) (text : string) (at_ : Z) :
  well_keyed t -> well_keyed (appended t text at_).
Proof.
  intros [Hlt Hnd]. unfold well_keyed, appended. cbn. split.
  - apply Forall_app. split.
    + eapply Forall_impl; [| exact Hlt]. cbn. intros r Hr. lia.
    + repeat constructor. cbn. lia.
  - rewrite map_app. cbn.
    apply (Permutation_NoDup (Permutation_cons_append _ _)).
    constructor; [| exact Hnd].
    intros Hin. apply in_map_iff in Hin. destruct Hin as (r & Hid & Hr).
    rewrite Forall_forall in Hlt. specialize (Hlt r Hr). lia.
Qed.

Lemma well_keyed_counter (t : table) (counter : Z) :
  well_keyed t -> auto_increment t <= counter ->
  well_keyed (Table (columns t) (rows t) counter).
Proof.
  intros [Hlt Hnd] Hle. split; cbn; [| exact Hnd].
  eapply Forall_impl; [| exact Hlt]. cbn. intros r Hr. lia.
Qed.

Lemma step_keys (e : endpoint) (w : world) :
  idle w -> keys_ok w -> keys_ok (snd (serve (handler e) w)).
Proof.
  intros Hi Hk. unfold keys_ok in *.
  destruct e as [| request |]; cbn [handler].
  - rewrite serve_table, (proj1 (proj1 (reads_keep_table w))). exact Hk.
  - destruct (messages_table w) as [t |] eqn:Ht.
    + destruct (serve (submit request) w) as [[x | r] w'] eqn:Hrun.
      * exfalso. unfold serve, app_context in Hrun.
        destruct (handlers_never_raise_submit request w) as (r & w1 & Hs).
        rewrite Hs in Hrun. discriminate.
      * cbn [snd].
        destruct (submit_outcome request w w' t r Hi Ht Hrun) as (H200 & Hn & _).
        destruct (Z.eq_dec (status r) 200) as [E | E].
        -- destruct (H200 E) as (v & text & _ & _ & _ & _ & ->).
           apply well_keyed_appended. exact Hk.
        -- destruct (Hn E) as (n & Hle & ->).
           apply well_keyed_counter; [assumption | lia].
    + pose proof (step_extends (POST_submit request) w) as Hstep.
      rewrite Ht in Hstep. cbn [handler] in Hstep. rewrite Hstep. exact I.
  - rewrite serve_table, (proj1 (proj2 (reads_keep_table w))). exact Hk.
Qed.

(** One request moves the counter on by one at most. *)
Lemma step_counter (e : endpoint) (w : world) :
  idle w ->
  counter w <= counter (snd (serve (handler e) w)) <= counter w + 1.
Proof.
  intros Hi. unfold counter.
  destruct e as [| request |]; cbn [handler].
  - rewrite serve_table, (proj1 (proj1 (reads_keep_table w))).
    destruct (messages_table w); lia.
  - destruct (messages_table w) as [t |] eqn:Ht.
    + destruct (serve (submit request) w) as [[x | r] w'] eqn:Hrun.
      * exfalso. unfold serve, app_context in Hrun.
        destruct (handlers_never_raise_submit request w) as (r & w1 & Hs).
        rewrite Hs in Hrun. discriminate.
      * cbn [snd].
        destruct (submit_outcome request w w' t r Hi Ht Hrun) as (H200 & Hn & _).
        destruct (Z.eq_dec (status r) 200) as [E | E].
        -- destruct (H200 E) as (v & text & _ & _ & _ & _ & ->). cbn. lia.
        -- destruct (Hn E) as (n & Hle & ->). cbn. lia.
    + pose proof (step_extends (POST_submit request) w) as Hstep.
      rewrite Ht in Hstep. cbn [handler] in Hstep. rewrite Hstep. lia.
  - rewrite serve_table, (proj1 (proj2 (reads_keep_table w))).
    destruct (messages_table w); lia.
Qed.

Lemma traffic_counter (requests : list (Z * endpoint)) (w : world) :
  idle w ->
  counter (traffic requests w) <= counter w + Z.of_nat (List.length requests).
Proof.
  revert w. induction requests as [| [wait e] requests IH]; intros w Hi; cbn [traffic].
  - cbn. lia.
  - pose proof (step_counter e (elapse wait w) (idle_elapse _ _ Hi)) as Hstep.
    pose proof (IH _ (serve_idle (handler e) (elapse wait w))) as Hrest.
    change (counter (elapse wait w)) with (counter w) in Hstep.
    cbn [List.length]. lia.
Qed.

Lemma traffic_keys (requests : list (Z * endpoint)) (w : world) :
  idle w -> keys_ok w -> keys_ok (traffic requests w).
Proof.
  revert w. induction requests as [| [wait e] requests IH]; intros w Hi Hk; cbn [traffic].
  - exact Hk.
  - apply IH; [apply serve_idle |].
    apply step_keys; [exact (idle_elapse _ _ Hi) | exact Hk].
Qed.

(** While the AUTO_INCREMENT counter has room in [id INT] for one row per
    request, the keys stay sound over any traffic: every [id] is below the
    counter, no two rows share an [id], and the counter stays within INT. *)
Theorem traffic_keeps_ids_unique (requests : list (Z * endpoint)) (w : world) :
  idle w ->
  keys_ok w ->
  counter w + Z.of_nat (List.length requests) <= INT_MAX ->
  keys_ok (traffic requests w) /\
  counter (traffic requests w) <= INT_MAX.
Proof.
  intros Hi Hk Hroom. split; [exact (traffic_keys requests w Hi Hk) |].
  pose proof (traffic_counter requests w Hi). lia.
Qed.

Lemma traffic_keeps_ids_unique_witness :
  idle one_old_message /\
  keys_ok one_old_message /\
  counter one_old_message + 3 <= INT_MAX /\
  keys_ok (traffic [(0, POST_submit (post "a")); (0, GET_index); (5, POST_submit (post "b"))]
                   one_old_message).
Proof.
  assert (Hi : idle one_old_message) by (repeat split).
  assert (Hk : keys_ok one_old_message).
  { split; cbn.
    - constructor; [cbn; lia | constructor].
    - constructor; [intros [] | constructor]. }
  assert (Hroom : counter one_old_message + 3 <= INT_MAX) by (cbn; unfold INT_MAX; lia).
  split; [exact Hi |]. split; [exact Hk |]. split; [exact Hroom |].
  exact (proj1 (traffic_keeps_ids_unique
                  [(0, POST_submit (post "a")); (0, GET_index); (5, POST_submit (post "b"))]
                  one_old_message Hi Hk Hroom)).
Defined.

(** ** No retries *)

(** A handler sends the driver calls of its plan in order, each once and
    only after the one before it returned: what goes out is the plan up to
    the first call that raises, that one included, and nothing after it.  A
    request that fails validation, or whose field cannot be read, sends
    nothing. *)
Theorem handlers_stop_at_the_first_raise (e : endpoint) (w : world) :
  calls (snd (handler e w)) = calls w ++ sent_until_raise (plan e) 0%nat w.
Proof.
  destruct e as [| request |]; cbn [handler].
  - destruct w as [tbl unc nw fs oc nc rs out cl]. cbn [plan sent_until_raise].
    unfold perform. py_run.
    two_faults fs; try destruct tbl; cbn; rewrite <- ?app_assoc; reflexivity.
  - destruct (submit request w) as [res w1] eqn:Hs.
    destruct w as [tbl unc nw fs oc nc rs out cl].
    unfold plan.
    submit_cases request fs Hs; try destruct tbl as [t |]; cbn in Hs;
      injection Hs as <- <-;
      cbn [snd sent_until_raise]; unfold perform; py_run;
      rewrite ?Hl; cbn; rewrite <- ?app_assoc, ?app_nil_r; reflexivity.
  - destruct w as [tbl unc nw fs oc nc rs out cl]. cbn [plan sent_until_raise].
    unfold perform. py_run.
    two_faults fs; cbn; rewrite <- ?app_assoc; reflexivity.
Qed.

(** ** Start-up *)

Lemma init_db_prints (w : world) :
  stdout (snd (init_db w))
  = stdout w ++ [match raised init_calls w with
                 | Some x => initialization_error_line x
                 | None => initialized_line
                 end].
Proof.
  destruct w as [tbl unc nw fs oc nc rs out cl].
  unfold raised, init_calls, create_calls, initialization_error_line, initialized_line.
  py_run.
  three_faults fs; try destruct tbl; reflexivity.
Qed.

(** [init_db] never raises and never leaves a connection behind; it prints
    exactly one line: the success line when none of its three driver calls
    raised, and otherwise the error line with the text of the exception that
    the first failing call raised. *)
Theorem init_db_reports_and_returns (w : world) :
  fst (init_db w) = inr tt /\
  idle (snd (init_db w)) /\
  stdout (snd (init_db w))
  = stdout w ++ [match raised init_calls w with
                 | Some x => initialization_error_line x
                 | None => initialized_line
                 end].
Proof.
  split; [apply init_db_total |]. split; [apply init_db_idle | apply init_db_prints].
Qed.

Lemma init_db_after_create (w : world) :
  messages_table w = None ->
  raised create_calls w = None ->
  messages_table (snd (init_db w)) = Some new_table.
Proof.
  destruct w as [tbl unc nw fs oc nc rs out cl]. cbn. intros ->.
  unfold raised, create_calls. py_run.
  three_faults fs; intros H; try discriminate H; reflexivity.
Qed.

(** On a server without the table, once the cursor and the CREATE TABLE
    statement have gone through the table is there when [init_db] returns;
    if the commit then raises, [init_db] prints the initialization error line
    with the text of that exception although the table now exists. *)
Theorem init_db_commit_error_after_create (w : world) :
  messages_table w = None ->
  raised create_calls w = None ->
  messages_table (snd (init_db w)) = Some new_table /\
  (forall x, raised init_calls w = Some x ->
     stdout (snd (init_db w)) = stdout w ++ [initialization_error_line x]).
Proof.
  intros Ht Hc. split; [exact (init_db_after_create w Ht Hc) |].
  intros x Hx. rewrite init_db_prints, Hx. reflexivity.
Qed.

Lemma init_db_commit_error_after_create_witness :
  messages_table (set_faults [None; None; Some (Exn OperationalError "gone")] no_table) = None /\
  raised create_calls (set_faults [None; None; Some (Exn OperationalError "gone")] no_table)
  = None /\
  raised init_calls (set_faults [None; None; Some (Exn OperationalError "gone")] no_table)
  = Some (Exn OperationalError "gone") /\
  messages_table
    (snd (init_db (set_faults [None; None; Some (Exn OperationalError "gone")] no_table)))
  = Some new_table /\
  stdout
    (snd (init_db (set_faults [None; None; Some (Exn OperationalError "gone")] no_table)))
  = [] ++ [initialization_error_line (Exn OperationalError "gone")].
Proof.
  split; [reflexivity |]. split; [reflexivity |]. split; [reflexivity |].
  destruct (init_db_commit_error_after_create
              (set_faults [None; None; Some (Exn OperationalError "gone")] no_table)
              eq_refl eq_refl) as [H1 H2].
  split; [exact H1 |]. exact (H2 _ eq_refl).
Defined.

Lemma init_db_fresh (k : nat) (w : world) :
  idle w ->
  messages_table w = None ->
  answers (3 + k) w = true ->
  idle (snd (init_db w)) /\
  messages_table (snd (init_db w)) = Some new_table /\
  answers k (snd (init_db w)) = true /\
  now (snd (init_db w)) = now w.
Proof.
  intros _ Ht Ha. split; [apply init_db_idle |].
  destruct w as [tbl unc nw fs oc nc rs out cl]. unfold answers in *. cbn in Ht, Ha.
  subst tbl. py_run.
  three_faults fs; repeat split; try assumption; apply clear_nil.
Qed.

(** Start-up, then the first request ever, then the page: on a server that
    answers and has no table yet, [init_db] makes the table, a valid
    submission is stored, and the listing shows that message alone. *)
Theorem first_message_after_start_up (request : request_t) (s : string) (w : world) :
  idle w ->
  messages_table w = None ->
  answers 8 w = true ->
  new_message_field request = Some (JStr s) ->
  s <> "" ->
  fst (serve (submit request) (snd (init_db w))) = inr (success s) /\
  listed (fst (serve index (snd (serve (submit request) (snd (init_db w)))))) = [s].
Proof.
  intros Hi Ht Ha Hf Hs.
  destruct (init_db_fresh 5 w Hi Ht Ha) as (Hi1 & Ht1 & Ha1 & _).
  destruct (serve_submit_ok 2 request s _ new_table Hi1 Ht1 Ha1 Hf Hs)
    as (w2 & Hrun & Hi2 & Ht2 & _ & Ha2).
  rewrite Hrun. cbn [fst snd]. split; [reflexivity |].
  rewrite (index_ok w2 _ Hi2 Ht2 Ha2). reflexivity.
Qed.

Lemma first_message_after_start_up_witness :
  idle no_table /\
  messages_table no_table = None /\
  answers 8 no_table = true /\
  new_message_field (post "first") = Some (JStr "first") /\
  "first" <> "" /\
  listed (fst (serve index (snd (serve (submit (post "first")) (snd (init_db no_table))))))
  = ["first"].
Proof.
  assert (Hi : idle no_table) by (repeat split).
  split; [exact Hi |]. split; [reflexivity |]. split; [reflexivity |].
  split; [reflexivity |]. split; [discriminate |].
  exact (proj2 (first_message_after_start_up (post "first") "first" no_table
                  Hi eq_refl eq_refl eq_refl ltac:(discriminate))).
Defined.

(** ** A server without the table *)

Lemma health_ok (k : nat) (w : world) :
  answers (2 + k) w = true ->
  exists w',
    serve health w = (inr healthy, w') /\
    messages_table w' = messages_table w /\
    answers k w' = true.
Proof.
  destruct w as [tbl unc nw fs oc nc rs out cl]. unfold answers. cbn. intros Ha.
  py_run. two_faults fs; eexists; repeat split; try assumption; apply clear_nil.
Qed.

Lemma index_without_table (w : world) :
  messages_table w = None -> listed (fst (serve index w)) = [].
Proof.
  destruct w as [tbl unc nw fs oc nc rs out cl]. cbn. intros ->.
  py_run. two_faults fs; reflexivity.
Qed.

Lemma submit_without_table (request : request_t) (v : Json.json) (w : world) :
  messages_table w = None ->
  new_message_field request = Some v ->
  truthy v = true ->
  fst (serve (submit request) w) = inr failed_to_submit.
Proof.
  intros Ht Hf Hv. unfold serve, app_context.
  destruct (submit request w) as [res w1] eqn:Hs.
  destruct w as [tbl unc nw fs oc nc rs out cl]. cbn in Ht. subst tbl.
  unfold submit, try_except in Hs. unfold bind at 1 in Hs.
  rewrite (read_field _ _ _ Hf), Hv in Hs. cbn [negb] in Hs. py_run.
  three_faults fs; injection Hs as <- <-; reflexivity.
Qed.

(** [health] does not look at the schema.  On a server that answers but
    has no [messages] table it reports healthy, while every submission with
    a message is answered with the generic 500 and the page lists nothing. *)
Theorem health_does_not_see_a_missing_table
    (request : request_t) (v : Json.json) (w : world) :
  messages_table w = None ->
  answers 2 w = true ->
  new_message_field request = Some v ->
  truthy v = true ->
  fst (serve health w) = inr healthy /\
  fst (serve (submit request) (snd (serve health w))) = inr failed_to_submit /\
  listed (fst (serve index (snd (serve health w)))) = [].
Proof.
  intros Ht Ha Hf Hv.
  destruct (health_ok 0 w Ha) as (w' & Hrun & Ht' & _).
  rewrite Hrun. cbn [fst snd]. rewrite Ht in Ht'.
  split; [reflexivity |]. split.
  - exact (submit_without_table request v w' Ht' Hf Hv).
  - exact (index_without_table w' Ht').
Qed.

Lemma health_does_not_see_a_missing_table_witness :
  messages_table no_table = None /\
  answers 2 no_table = true /\
  new_message_field (post "hello") = Some (JStr "hello") /\
  truthy (JStr "hello") = true /\
  fst (serve health no_table) = inr healthy /\
  fst (serve (submit (post "hello")) (snd (serve health no_table))) = inr failed_to_submit.
Proof.
  repeat (split; [reflexivity |]).
  destruct (health_does_not_see_a_missing_table (post "hello") (JStr "hello") no_table
              eq_refl eq_refl eq_refl eq_refl) as (H1 & H2 & _).
  split; assumption.
Defined.

(** ** The page *)

(** The page holds as many messages as the table has rows, up to 50. *)
Theorem listing_length (w : world) (tb : table) :
  idle w ->
  messages_table w = Some tb ->
  answers 2 w = true ->
  List.length (listed (fst (serve index w))) = Nat.min 50 (List.length (rows tb)).
Proof.
  intros Hi Ht Ha. rewrite (index_ok w tb Hi Ht Ha). cbn [listed ok].
  rewrite length_map, length_firstn.
  rewrite (Permutation_length (order_by_perm (rows tb))). reflexivity.
Qed.

Lemma listing_length_witness :
  idle one_old_message /\
  messages_table one_old_message = Some (Table messages_columns [Row 1 "old" 90] 2) /\
  answers 2 one_old_message = true /\
  List.length (listed (fst (serve index one_old_message))) = 1%nat.
Proof.
  assert (Hi : idle one_old_message) by (repeat split).
  split; [exact Hi |]. split; [reflexivity |]. split; [reflexivity |].
  exact (listing_length one_old_message _ Hi eq_refl eq_refl).
Defined.

(** After any batch of submissions, each in a later second than the one
    before and than every row already there, the page shows the batch
    newest first, then the older messages in their order, cut at 50. *)
Theorem listing_after_submissions (batch : list (Z * string)) (w : world) (tb : table) :
  idle w ->
  messages_table w = Some tb ->
  answers (3 * List.length batch + 2) w = true ->
  Forall (fun r => created_at r <= now w) (rows tb) ->
  Forall (fun p => 0 < fst p /\ snd p <> "") batch ->
  listed (fst (serve index (submit_each batch w)))
  = firstn 50 (rev (map snd batch)
               ++ map message (order_by_created_at_desc (rows tb))).
Proof.
  intros Hi Ht Ha Hold Hb.
  destruct (submit_each_ok batch 2 w tb Hi Ht Ha Hold Hb)
    as (tb' & Hi' & Ht' & Ha' & Hlist).
  rewrite (index_ok _ tb' Hi' Ht' Ha'). cbn [listed ok].
  rewrite <- firstn_map, Hlist. reflexivity.
Qed.

Lemma listing_after_submissions_witness :
  idle one_old_message /\
  messages_table one_old_message = Some (Table messages_columns [Row 1 "old" 90] 2) /\
  answers (3 * 2 + 2) one_old_message = true /\
  Forall (fun r => created_at r <= now one_old_message) [Row 1 "old" 90] /\
  Forall (fun p => 0 < fst p /\ snd p <> "") [(1, "a"); (2, "b")] /\
  listed (fst (serve index (submit_each [(1, "a"); (2, "b")] one_old_message)))
  = ["b"; "a"; "old"].
Proof.
  assert (Hi : idle one_old_message) by (repeat split).
  assert (Hold : Forall (fun r => created_at r <= now one_old_message) [Row 1 "old" 90])
    by (constructor; [cbn; lia | constructor]).
  assert (Hb : Forall (fun p => 0 < fst p /\ snd p <> "") [(1, "a"); (2, "b")]).
  { repeat constructor; cbn; try lia; discriminate. }
  split; [exact Hi |]. split; [reflexivity |]. split; [reflexivity |].
  split; [exact Hold |]. split; [exact Hb |].
  exact (listing_after_submissions [(1, "a"); (2, "b")] one_old_message _
           Hi eq_refl eq_refl Hold Hb).
Defined.

(** ** What is logged *)

Lemma attempt_submit_reads (request : request_t) (v : Json.json) (w : world) :
  new_message_field request = Some v ->
  raised (attempt (POST_submit request)) w
  = if truthy v
    then raised (c <- cursor ;; execute c (INSERT_INTO_messages v) ;; commit) w
    else None.
Proof.
  intros Hf. unfold raised at 1. cbn [attempt]. unfold bind at 1.
  rewrite (read_field _ _ _ Hf). destruct (truthy v); reflexivity.
Qed.

Lemma attempt_submit_unreadable (request : request_t) (w : world) :
  new_message_field request = None ->
  exists x,
    raised (attempt (POST_submit request)) w = Some x /\
    (if is_json request
     then (j <- Flask.json request ;; get j "new_message")
     else ret (form_get (form request) "new_message")) w = (inl x, w).
Proof.
  intros Hf. destruct (read_field_none request w Hf) as (x & Hx).
  exists x. split; [| exact Hx].
  unfold raised. cbn [attempt]. unfold bind at 1. rewrite Hx. reflexivity.
Qed.

(** What a handler prints is decided by the first exception of its
    attempt.  [health] never prints.  [index] prints nothing when nothing is
    raised, and otherwise one line with the text of the exception, rendering
    the empty list.  [submit] prints nothing and does not answer 500 when
    nothing is raised, and otherwise prints one line with the text of the
    exception and answers 500. *)
Theorem what_the_handlers_print (e : endpoint) (w : world) :
  exists r w',
    handler e w = (inr r, w') /\
    stdout w'
    = stdout w ++ match e, raised (attempt e) w with
                  | GET_index, Some x => [("Error fetching messages: " ++ str x)%string]
                  | POST_submit _, Some x => [("Error submitting message: " ++ str x)%string]
                  | _, _ => []
                  end /\
    match e, raised (attempt e) w with
    | GET_index, Some _ => listed (inr r) = []
    | POST_submit _, Some _ => status r = 500
    | POST_submit _, None => status r <> 500
    | _, _ => True
    end.
Proof.
  destruct e as [| request |].
  - destruct w as [tbl unc nw fs oc nc rs out cl]. unfold raised. cbn [attempt handler].
    py_run.
    two_faults fs; try destruct tbl; cbn; rewrite ?app_nil_r;
      do 2 eexists; repeat split.
  - cbn [handler].
    destruct (new_message_field request) as [v |] eqn:Hf.
    + rewrite (attempt_submit_reads request v w Hf).
      unfold submit, try_except. unfold bind at 1. rewrite (read_field _ _ _ Hf).
      destruct w as [tbl unc nw fs oc nc rs out cl]. unfold raised.
      destruct (truthy v); cbn [negb]; py_run.
      * three_faults fs; try destruct tbl; cbn; try destruct (literal v); cbn;
          rewrite ?app_nil_r; do 2 eexists; repeat split; discriminate.
      * rewrite app_nil_r. do 2 eexists. repeat split. discriminate.
    + destruct (attempt_submit_unreadable request w Hf) as (x & Hr & Hx).
      rewrite Hr. unfold submit, try_except. unfold bind at 1. rewrite Hx.
      py_run. do 2 eexists. repeat split.
  - destruct w as [tbl unc nw fs oc nc rs out cl]. unfold raised. cbn [attempt handler].
    py_run.
    two_faults fs; cbn; rewrite ?app_nil_r; do 2 eexists; repeat split.
Qed.
